(** * Product configurator: compatibility rules, option filtering, pricing

    Shallow embedding of [src/server.js], an Express service that keeps, per
    product template, a rule list, an option catalog and a base price, and
    answers two queries: which options of a category remain available, and
    whether a full configuration is valid and what it costs.

    Modelling conventions.
    - The service keeps its data in plain JavaScript objects and reads them
      with [obj[key]], which also finds what the object inherits from
      [Object.prototype]. The model keeps the own properties ([templates]
      and the categories of a template as finite maps) and resolves every
      read by key through the prototype as well: [lookupTemplate],
      [lookupCategory], [lookupMember]. What the service itself can write
      into a prototype is part of the state: [Object.prototype.base_price]
      ([prototype_base_price]) and the prototype of a template's options
      object ([prototype]).
    - A handler that throws is answered 500 by Express ([Thrown]).
    - A request body is typed as the routes use it: [selections] and
      [currentSelections] map strings to strings, [options] maps choice
      identifiers to objects with a [name] and a [price_delta], rule fields
      are strings, prices are integers. A field the body does not carry is
      [None]. An object that is enumerated is the list of its own
      properties in creation order; the list stands for an object when its
      keys are distinct. [own_entries] is the order of [Object.keys] and
      [Object.entries]: array indices first, ascending, then the other
      keys in creation order.
    - Numbers are IEEE doubles. An integer price is a double when it is
      exactly representable; [js_add] adds as the machine does, rounding
      to nearest, ties to even, with overflow to infinity and [NaN] for
      [undefined] operands.
    - The two read routes return [None] where the answer depends on the
      members of a built-in function or number object of the runtime, or on
      the property order inside an option object: those are not part of
      [src/server.js] or of the typed body.
    - A route that writes returns the new store with the response. *)

From Stdlib Require Import ZArith String List Ascii.
From stdpp Require Import gmap strings list fin_maps.

(** ** JavaScript values as the service uses them *)

(** An object whose enumeration order is observed: its own properties, in
    creation order. *)
Abbreviation JsObject V := (list (string * V)) (only parsing).

(** The value of own property [k]. *)
Fixpoint obj_get {V : Type} (k : string) (o : JsObject V) : option V :=
  match o with
  | [] => None
  | (k', v) :: o' => if decide (k' = k) then Some v else obj_get k o'
  end.

(** The value of a decimal digit. *)
Definition digit (c : ascii) : option N :=
  let n := N_of_ascii c in
  if (48 <=? n)%N && (n <=? 57)%N then Some (n - 48)%N else None.

Fixpoint digits (s : string) (acc : N) : option N :=
  match s with
  | EmptyString => Some acc
  | String c s' =>
      match digit c with
      | Some d => digits s' (10 * acc + d)%N
      | None => None
      end
  end.

(** A key is an array index when it is the canonical decimal form of an
    integer from 0 to 2^32 - 2. *)
Definition array_index (s : string) : option N :=
  match s with
  | EmptyString => None
  | String c s' =>
      if Ascii.eqb c (Ascii.ascii_of_nat 48) && negb (String.eqb s' "") then None
      else
        match digits s 0%N with
        | Some n => if (n <=? 4294967294)%N then Some n else None
        | None => None
        end
  end.

Fixpoint insert_index {V : Type} (i : N) (e : string * V)
    (l : list (N * (string * V))) : list (N * (string * V)) :=
  match l with
  | [] => [(i, e)]
  | (j, e') :: l' =>
      if (i <=? j)%N then (i, e) :: l else (j, e') :: insert_index i e l'
  end.

(** The properties whose key is an array index, in ascending order. *)
Fixpoint indexed {V : Type} (o : JsObject V) : list (N * (string * V)) :=
  match o with
  | [] => []
  | e :: o' =>
      match array_index e.1 with
      | Some i => insert_index i e (indexed o')
      | None => indexed o'
      end
  end.

(** The other properties, in creation order. *)
Fixpoint named {V : Type} (o : JsObject V) : JsObject V :=
  match o with
  | [] => []
  | e :: o' =>
      match array_index e.1 with
      | Some _ => named o'
      | None => e :: named o'
      end
  end.

(** [Object.entries(o)]. *)
Definition own_entries {V : Type} (o : JsObject V) : JsObject V :=
  map snd (indexed o) ++ named o.

(** [Object.keys(o)]. *)
Definition own_keys {V : Type} (o : JsObject V) : list string :=
  map fst (own_entries o).

(** [ToBoolean]: which values pass [if (x)] and fail [!x]. *)
Class ToBoolean (A : Type) := truthy : A -> bool.

#[global] Instance number_truthy : ToBoolean Z :=
  fun n => negb (n =? 0)%Z.
#[global] Instance string_truthy : ToBoolean string :=
  fun s => negb (String.eqb s "").
#[global] Instance object_truthy (V : Type) : ToBoolean (JsObject V) :=
  fun _ => true.
(** [undefined] is falsy. *)
#[global] Instance field_truthy (A : Type) `{ToBoolean A} : ToBoolean (option A) :=
  fun o => match o with Some a => truthy a | None => false end.

(** [x || d] on numbers. *)
Definition js_or (x d : Z) : Z := if truthy x then x else d.

(** A number as a sum can leave it. *)
Inductive JsNumber :=
| Finite (z : Z)
| Infinity (negative : bool)
| NaN.

(** The double nearest to the integer [z], ties to even. *)
Definition round_double (z : Z) : JsNumber :=
  let a := Z.abs z in
  if (a <=? 2 ^ 53)%Z then Finite z
  else
    let ulp := (2 ^ (Z.log2 a - 52))%Z in
    let q := (a / ulp)%Z in
    let r := (a mod ulp)%Z in
    let q' :=
      if (2 * r <? ulp)%Z then q
      else if (ulp <? 2 * r)%Z then (q + 1)%Z
      else if Z.even q then q else (q + 1)%Z in
    let m := (q' * ulp)%Z in
    if (2 ^ 1024 <=? m)%Z then Infinity (z <? 0)%Z
    else Finite (Z.sgn z * m)%Z.

(** [x + y] on numbers. *)
Definition js_add (x y : JsNumber) : JsNumber :=
  match x, y with
  | Finite a, Finite b => round_double (a + b)
  | NaN, _ | _, NaN => NaN
  | Infinity s, Infinity s' => if Bool.eqb s s' then Infinity s else NaN
  | Infinity s, Finite _ | Finite _, Infinity s => Infinity s
  end.

(** [xs.join(sep)]. *)
Fixpoint join (sep : string) (xs : list string) : string :=
  match xs with
  | [] => ""
  | [x] => x
  | x :: xs' => x +:+ sep +:+ join sep xs'
  end.

(** The double-quote character (code 34) and an identifier between two of
    them, as the template literals of the violation messages write it. *)
Definition dquote : string := String (Ascii.ascii_of_nat 34) EmptyString.
Definition quoted (s : string) : string := dquote +:+ s +:+ dquote.

(** ** Data model *)

Record ProductOption := mkOption {
  name : string;
  price_delta : Z
}.

Record Rule := mkRule {
  rule_type : string;
  primary_choice_str_id : string;
  secondary_choice_str_id : string
}.

(** The [options] object of a template: its own properties, one per
    category, and the object an assignment to [__proto__] has put in the
    place of its prototype, if any. *)
Record OptionsObject := mkOptions {
  categories : gmap string (list (string * ProductOption));
  prototype : option (list (string * ProductOption))
}.

Record Template := mkTemplate {
  compatibilityRules : list Rule;
  options : OptionsObject;
  base_price : Z
}.

(** The object [templates] with what the routes can write outside it:
    [Object.prototype.base_price]. *)
Record Store := mkStore {
  templates : gmap string Template;
  prototype_base_price : option Z
}.

(** The element of the array that the available-options route sends. *)
Module Summary.
Record t := mk {
  name : string;
  choice_str_id : string;
  price_delta : Z
}.
End Summary.

(** The body of the compatibility-rules route. *)
Module RuleBody.
Record t := mk {
  rule_type : option string;
  primary_choice_str_id : option string;
  secondary_choice_str_id : option string
}.
End RuleBody.

(** What [res.status(..).send(..)] is given; [Thrown] is the answer of
    Express to a handler that throws. *)
Inductive Payload :=
| Error (error : string)
| Message (message : string)
| Options (validOptions : list Summary.t)
| Invalid (errors : list string)
| Valid (total_price : JsNumber) (selections : list (string * string))
| Thrown.

Record Response := mkResponse {
  status : nat;
  send : Payload
}.

(** ** Reading by key *)

(** The members of [Object.prototype] that are functions, and all its
    members. *)
Definition function_members : list string :=
  ["constructor"; "hasOwnProperty"; "isPrototypeOf"; "propertyIsEnumerable";
   "toLocaleString"; "toString"; "valueOf";
   "__defineGetter__"; "__defineSetter__"; "__lookupGetter__"; "__lookupSetter__"].

Definition prototype_members : list string := "__proto__" :: function_members.

(** What [templates[id]] evaluates to. *)
Inductive TemplateLookup :=
| Stored (template : Template)
| BuiltinFunction
| ObjectPrototype
| PrototypeNumber (p : Z)
| Missing.

Definition lookupTemplate (store : Store) (template_str_id : string) : TemplateLookup :=
  match templates store !! template_str_id with
  | Some template => Stored template
  | None =>
      if bool_decide (template_str_id = "__proto__") then ObjectPrototype
      else if bool_decide (template_str_id ∈ function_members) then BuiltinFunction
      else
        match prototype_base_price store with
        | Some p =>
            if bool_decide (template_str_id = "base_price") then PrototypeNumber p
            else Missing
        | None => Missing
        end
  end.

(** [!templates[id]]: every inherited member is truthy except a zero. *)
Definition absent (l : TemplateLookup) : bool :=
  match l with
  | Missing => true
  | PrototypeNumber p => negb (truthy p)
  | _ => false
  end.

(** What [template.options[category]] evaluates to. *)
Inductive CategoryLookup :=
| Mapping (m : list (string * ProductOption))
| OptionObject (o : ProductOption)
| PrototypeObject
| FunctionObject
| NumberValue (p : Z)
| UndefinedCategory.

Definition lookupCategory (store : Store) (o : OptionsObject) (category_str_id : string)
  : CategoryLookup :=
  match categories o !! category_str_id with
  | Some m => Mapping m
  | None =>
      match prototype o ≫= obj_get category_str_id with
      | Some option => OptionObject option
      | None =>
          if bool_decide (category_str_id = "__proto__") then
            match prototype o with
            | Some m => Mapping m
            | None => PrototypeObject
            end
          else if bool_decide (category_str_id ∈ function_members) then FunctionObject
          else
            match prototype_base_price store with
            | Some p =>
                if bool_decide (category_str_id = "base_price") then NumberValue p
                else UndefinedCategory
            | None => UndefinedCategory
            end
      end
  end.

(** What the price loop finds for one selection. *)
Inductive Found :=
| FoundOption (option : ProductOption)
| FoundOther
| NotFound
| Foreign.

(** [x[choice]] for an [x] that has no such own property and inherits from
    [Object.prototype]: every member is truthy and has no [price_delta]. *)
Definition lookupMember (store : Store) (choice : string) : Found :=
  if bool_decide (choice ∈ prototype_members) then FoundOther
  else if bool_decide (choice = "base_price") && truthy (prototype_base_price store)
  then FoundOther
  else NotFound.

(** ** Request validation *)

(** [ToBoolean(body[f])] for a body that carries the one field [fname]. *)
Definition field_of {A : Type} `{ToBoolean A} (fname : string) (v : option A)
  : string -> bool :=
  fun f => bool_decide (f = fname) && truthy v.

Definition rule_fields (body : RuleBody.t) : string -> bool :=
  fun f =>
    field_of "rule_type" (RuleBody.rule_type body) f
    || field_of "primary_choice_str_id" (RuleBody.primary_choice_str_id body) f
    || field_of "secondary_choice_str_id" (RuleBody.secondary_choice_str_id body) f.

(** [body.base_price]: the own property, else what [Object.prototype]
    holds under that name. No other field name is ever written there. *)
Definition body_base_price (store : Store) (own : option Z) : option Z :=
  match own with
  | Some v => Some v
  | None => prototype_base_price store
  end.

(** [validateRequestBody]: [body f] is [ToBoolean(body[f])]; the result is
    the error string, or [None] for [null]. *)
Definition validateRequestBody (requiredFields : list string) (body : string -> bool)
  : option string :=
  let missingFields := List.filter (fun field => negb (body field)) requiredFields in
  if (0 <? length missingFields)%nat
  then Some ("Missing required fields: " +:+ join ", " missingFields)
  else None.

(** ** The template store and its mutations

    Each route destructures its fields from the body and returns at once
    when [validateRequestBody] reports one missing, so past that check every
    destructured field is present; [default] reads it there. *)

Definition emptyTemplate : Template :=
  {| compatibilityRules := []; options := mkOptions ∅ None; base_price := 0 |}.

(** [templates[id] = template]. *)
Definition storeTemplate (store : Store) (template_str_id : string)
    (template : Template) : Store :=
  {| templates := <[template_str_id := template]> (templates store);
     prototype_base_price := prototype_base_price store |}.

Definition pushRule (rule : Rule) (template : Template) : Template :=
  {| compatibilityRules := compatibilityRules template ++ [rule];
     options := options template;
     base_price := base_price template |}.

Definition assignBasePrice (p : Z) (template : Template) : Template :=
  {| compatibilityRules := compatibilityRules template;
     options := options template;
     base_price := p |}.

(** [o[category] = m] on an options object: an ordinary property, except
    that [__proto__] reaches the setter of [Object.prototype], which puts
    [m] in the place of the prototype, unless the object or its present
    prototype has an own property of that name. *)
Definition setCategory (category_str_id : string) (m : list (string * ProductOption))
    (o : OptionsObject) : OptionsObject :=
  if bool_decide (category_str_id = "__proto__")
     && bool_decide (categories o !! "__proto__" = None)
     && bool_decide (prototype o ≫= obj_get "__proto__" = None)
  then {| categories := categories o; prototype := Some m |}
  else {| categories := <[category_str_id := m]> (categories o);
          prototype := prototype o |}.

Definition assignOptions (category_str_id : string) (m : list (string * ProductOption))
    (template : Template) : Template :=
  {| compatibilityRules := compatibilityRules template;
     options := setCategory category_str_id m (options template);
     base_price := base_price template |}.

(** 1. Add Compatibility Rule. On an inherited member line 29 creates
    nothing and [.compatibilityRules.push] throws. *)
Definition addCompatibilityRule (store : Store)
    (template_str_id : string) (body : RuleBody.t)
  : Store * Response :=
  match validateRequestBody
          ["rule_type"; "primary_choice_str_id"; "secondary_choice_str_id"]
          (rule_fields body) with
  | Some validationError => (store, mkResponse 400 (Error validationError))
  | None =>
      let rule :=
        {| rule_type := default "" (RuleBody.rule_type body);
           primary_choice_str_id := default "" (RuleBody.primary_choice_str_id body);
           secondary_choice_str_id := default "" (RuleBody.secondary_choice_str_id body) |} in
      let added := mkResponse 200 (Message "Compatibility rule added successfully.") in
      match lookupTemplate store template_str_id with
      | Stored template =>
          (storeTemplate store template_str_id (pushRule rule template), added)
      | l =>
          if absent l
          then (storeTemplate store template_str_id (pushRule rule emptyTemplate), added)
          else (store, mkResponse 500 Thrown)
      end
  end.

(** 4. Set Base Price for Template. On an inherited member the assignment
    of line 137 writes to that member: to a built-in function, to
    [Object.prototype], or (without effect) to a number. *)
Definition setBasePrice (store : Store)
    (template_str_id : string) (own_base_price : option Z)
  : Store * Response :=
  let base_price := body_base_price store own_base_price in
  match validateRequestBody ["base_price"] (field_of "base_price" base_price) with
  | Some validationError => (store, mkResponse 400 (Error validationError))
  | None =>
      let p := default 0%Z base_price in
      let set := mkResponse 200 (Message "Base price set successfully.") in
      match lookupTemplate store template_str_id with
      | Stored template =>
          (storeTemplate store template_str_id (assignBasePrice p template), set)
      | ObjectPrototype =>
          ({| templates := templates store; prototype_base_price := Some p |}, set)
      | l =>
          if absent l
          then (storeTemplate store template_str_id (assignBasePrice p emptyTemplate), set)
          else (store, set)
      end
  end.

(** 5. Add Options for a Category. On an inherited member
    [.options[category] = ...] throws. *)
Definition addOptions (store : Store)
    (template_str_id category_str_id : string)
    (body_options : option (list (string * ProductOption)))
  : Store * Response :=
  match validateRequestBody ["options"] (field_of "options" body_options) with
  | Some validationError => (store, mkResponse 400 (Error validationError))
  | None =>
      let m := default [] body_options in
      let added := mkResponse 200 (Message "Options added successfully.") in
      match lookupTemplate store template_str_id with
      | Stored template =>
          (storeTemplate store template_str_id (assignOptions category_str_id m template),
           added)
      | l =>
          if absent l
          then (storeTemplate store template_str_id
                  (assignOptions category_str_id m emptyTemplate), added)
          else (store, mkResponse 500 Thrown)
      end
  end.

(** ** Rule evaluation and option filtering *)

(** The callback of [compatibilityRules.every]. A selection value is a
    string, and nothing a selections object inherits is one, so
    [selections[id] === id] is decided by the own properties. *)
Definition ruleSatisfied (currentSelections : list (string * string)) (rule : Rule) : bool :=
  if bool_decide (rule_type rule = "REQUIRES")
     && bool_decide (obj_get (primary_choice_str_id rule) currentSelections
                     = Some (primary_choice_str_id rule))
  then bool_decide (obj_get (secondary_choice_str_id rule) currentSelections
                    = Some (secondary_choice_str_id rule))
  else if bool_decide (rule_type rule = "INCOMPATIBLE_WITH")
          && bool_decide (obj_get (primary_choice_str_id rule) currentSelections
                          = Some (primary_choice_str_id rule))
  then negb (bool_decide (obj_get (secondary_choice_str_id rule) currentSelections
                          = Some (secondary_choice_str_id rule)))
  else true.

(** The callback of [.filter]: it takes the entry and does not read it. *)
Definition keepOption (template : Template) (currentSelections : list (string * string))
    (entry : string * ProductOption) : bool :=
  let '(choice_str_id, option) := entry in
  forallb (ruleSatisfied currentSelections) (compatibilityRules template).

(** The callback of [.map]. *)
Definition summarize (entry : string * ProductOption) : Summary.t :=
  let '(choice_str_id, option) := entry in
  {| Summary.name := name option;
     Summary.choice_str_id := choice_str_id;
     Summary.price_delta := price_delta option |}.

(** [.filter(..).map(..)] of lines 58-73, on what [Object.entries] gave. *)
Definition availableOptions (template : Template) (entries : list (string * ProductOption))
    (currentSelections : list (string * string)) : list Summary.t :=
  map summarize (List.filter (keepOption template currentSelections) entries).

(** [Object.entries(template.options[category] || {})], where the model
    knows the entries. *)
Definition categoryEntries (store : Store) (template : Template)
    (target_category_str_id : string) : option (list (string * ProductOption)) :=
  match lookupCategory store (options template) target_category_str_id with
  | Mapping m => Some (own_entries m)
  | UndefinedCategory => Some []
  | NumberValue _ => Some []
  | OptionObject _ | PrototypeObject | FunctionObject => None
  end.

(** 2. Get Available Options for a Category. On an inherited member
    [template.options] is [undefined] and reading a category from it
    throws. *)
Definition getAvailableOptions (store : Store)
    (template_str_id target_category_str_id : string)
    (currentSelections : option (list (string * string))) : option Response :=
  match validateRequestBody ["currentSelections"]
          (field_of "currentSelections" currentSelections) with
  | Some validationError => Some (mkResponse 400 (Error validationError))
  | None =>
      match lookupTemplate store template_str_id with
      | Stored template =>
          match categoryEntries store template target_category_str_id with
          | Some entries =>
              Some (mkResponse 200
                      (Options (availableOptions template entries
                                   (default [] currentSelections))))
          | None => None
          end
      | l =>
          if absent l
          then Some (mkResponse 404 (Error "Template not found."))
          else Some (mkResponse 500 Thrown)
      end
  end.

(** ** Configuration validation and pricing *)

Definition requiresMessage (rule : Rule) : string :=
  quoted (primary_choice_str_id rule) +:+ " requires "
  +:+ quoted (secondary_choice_str_id rule).

Definition incompatibleMessage (rule : Rule) : string :=
  quoted (primary_choice_str_id rule) +:+ " is incompatible with "
  +:+ quoted (secondary_choice_str_id rule).

(** The callback of [compatibilityRules.forEach], with [errors.push]. *)
Definition checkRule (selections : list (string * string)) (errors : list string)
    (rule : Rule) : list string :=
  let errors :=
    if bool_decide (rule_type rule = "REQUIRES")
       && bool_decide (obj_get (primary_choice_str_id rule) selections
                       = Some (primary_choice_str_id rule))
    then
      if negb (bool_decide (obj_get (secondary_choice_str_id rule) selections
                            = Some (secondary_choice_str_id rule)))
      then errors ++ [requiresMessage rule]
      else errors
    else errors in
  if bool_decide (rule_type rule = "INCOMPATIBLE_WITH")
     && bool_decide (obj_get (primary_choice_str_id rule) selections
                     = Some (primary_choice_str_id rule))
  then
    if bool_decide (obj_get (secondary_choice_str_id rule) selections
                    = Some (secondary_choice_str_id rule))
    then errors ++ [incompatibleMessage rule]
    else errors
  else errors.

(** [x[choice]] for an option object [x] reached through the prototype of
    the options object: its two own properties, then [Object.prototype]. *)
Definition lookupInOption (store : Store) (x : ProductOption) (choice : string) : Found :=
  if bool_decide (choice = "name")
  then (if truthy (name x) then FoundOther else NotFound)
  else if bool_decide (choice = "price_delta")
  then (if truthy (price_delta x) then FoundOther else NotFound)
  else lookupMember store choice.

(** [template.options[selection]?.[selections[selection]]]. *)
Definition selectedOption (store : Store) (template : Template)
    (selections : list (string * string)) (selection : string) : Found :=
  match obj_get selection selections with
  | None => NotFound
  | Some choice =>
      match lookupCategory store (options template) selection with
      | Mapping m =>
          match obj_get choice m with
          | Some option => FoundOption option
          | None => lookupMember store choice
          end
      | OptionObject x => lookupInOption store x choice
      | PrototypeObject =>
          if bool_decide (choice = "__proto__") then NotFound
          else lookupMember store choice
      | FunctionObject | NumberValue _ => Foreign
      | UndefinedCategory => NotFound
      end
  end.

(** The callback of [Object.keys(selections).forEach]: a found option adds
    its [price_delta]; anything else truthy adds [undefined]. *)
Definition addPrice (store : Store) (template : Template)
    (selections : list (string * string))
    (totalPrice : option JsNumber) (selection : string) : option JsNumber :=
  match totalPrice with
  | None => None
  | Some total =>
      match selectedOption store template selections selection with
      | FoundOption option => Some (js_add total (Finite (price_delta option)))
      | FoundOther => Some NaN
      | NotFound => Some total
      | Foreign => None
      end
  end.

(** Lines 93-120. *)
Definition validate (store : Store) (template : Template)
    (selections : list (string * string)) : option Response :=
  let errors := foldl (checkRule selections) [] (compatibilityRules template) in
  let totalPrice := Finite (js_or (base_price template) 0) in
  if (0 <? length errors)%nat
  then Some (mkResponse 400 (Invalid errors))
  else
    match foldl (addPrice store template selections) (Some totalPrice)
                (own_keys selections) with
    | Some totalPrice => Some (mkResponse 200 (Valid totalPrice selections))
    | None => None
    end.

(** 3. Validate Full Configuration and Get Price. On an inherited member
    [template.compatibilityRules] is [undefined] and [.forEach] throws. *)
Definition validateConfiguration (store : Store)
    (template_str_id : string) (selections : option (list (string * string)))
  : option Response :=
  match validateRequestBody ["selections"] (field_of "selections" selections) with
  | Some validationError => Some (mkResponse 400 (Error validationError))
  | None =>
      match lookupTemplate store template_str_id with
      | Stored template => validate store template (default [] selections)
      | l =>
          if absent l
          then Some (mkResponse 404 (Error "Template not found."))
          else Some (mkResponse 500 Thrown)
      end
  end.

(** ** Histories of mutation requests *)

Inductive Mutation :=
| AddCompatibilityRule (template_str_id : string) (body : RuleBody.t)
| SetBasePrice (template_str_id : string) (own_base_price : option Z)
| AddOptions (template_str_id category_str_id : string)
             (body_options : option (list (string * ProductOption))).

Definition mutated (m : Mutation) : string :=
  match m with
  | AddCompatibilityRule t _ => t
  | SetBasePrice t _ => t
  | AddOptions t _ _ => t
  end.

Definition perform (store : Store) (m : Mutation) : Store :=
  match m with
  | AddCompatibilityRule t body => (addCompatibilityRule store t body).1
  | SetBasePrice t body => (setBasePrice store t body).1
  | AddOptions t c body => (addOptions store t c body).1
  end.

(** What the mutation request [m] is answered. *)
Definition reply (store : Store) (m : Mutation) : Response :=
  match m with
  | AddCompatibilityRule t body => (addCompatibilityRule store t body).2
  | SetBasePrice t body => (setBasePrice store t body).2
  | AddOptions t c body => (addOptions store t c body).2
  end.

(** The store at start-up, and after the requests [ms] served in order. *)
Definition startup : Store := mkStore ∅ None.

Definition history (ms : list Mutation) : Store := foldl perform startup ms.

(** ** Vocabulary of the statements *)

(** A choice is selected when the selection context maps it to itself. *)
Definition selected (selectionContext : list (string * string)) (choice : string) : Prop :=
  obj_get choice selectionContext = Some choice.

(** The lookup reached a member of a prototype. *)
Definition inherits (l : TemplateLookup) : bool :=
  match l with
  | BuiltinFunction | ObjectPrototype | PrototypeNumber _ => true
  | Stored _ | Missing => false
  end.

(** The category is an own property of the options object, or resolves to
    nothing at all. *)
Definition plainCategory (store : Store) (o : OptionsObject) (category_str_id : string)
  : bool :=
  match categories o !! category_str_id with
  | Some _ => true
  | None =>
      match lookupCategory store o category_str_id with
      | UndefinedCategory => true
      | _ => false
      end
  end.

(** The entry of the selections is resolved by own properties alone: its
    key is a plain category, and its value is a choice of that category or
    resolves to nothing. *)
Definition plainEntry (store : Store) (o : OptionsObject) (entry : string * string)
  : bool :=
  match categories o !! entry.1 with
  | Some m =>
      match obj_get entry.2 m with
      | Some _ => true
      | None =>
          match lookupMember store entry.2 with
          | NotFound => true
          | _ => false
          end
      end
  | None => plainCategory store o entry.1
  end.

(** The message pushed for a violated rule. Only rules of the two known
    types can be violated. *)
Definition violationMessage (rule : Rule) : string :=
  if bool_decide (rule_type rule = "REQUIRES")
  then requiresMessage rule
  else incompatibleMessage rule.

(** The messages of the violated rules, in the order of the rule list. *)
Definition violations (selections : list (string * string)) (rules : list Rule)
  : list string :=
  map violationMessage
    (List.filter (fun rule => negb (ruleSatisfied selections rule)) rules).

(** The option that the entry [(selection, choice)] of the selections
    names: choice [choice] of the own category [selection]. *)
Definition entryOption (template : Template) (entry : string * string)
  : option ProductOption :=
  categories (options template) !! entry.1 ≫= obj_get entry.2.

(** The price deltas of the entries that name an option, in the order of
    the entries. *)
Definition entryPrices (template : Template) (entries : list (string * string))
  : list Z :=
  map price_delta (omap (entryOption template) entries).



(** The sum in the arithmetic of the machine, from left to right. *)
Definition js_sum (start : JsNumber) (l : list Z) : JsNumber :=
  foldl (fun total z => js_add total (Finite z)) start l.

(** A rule all of whose fields passed the body check. *)
Definition rule_checked (rule : Rule) : Prop :=
  rule_type rule <> ""
  /\ primary_choice_str_id rule <> ""
  /\ secondary_choice_str_id rule <> "".

(** What a template can become under one accepted mutation request. *)
Definition gentle (f : Template -> Template) : Prop :=
  forall template : Template,
    compatibilityRules template `prefix_of` compatibilityRules (f template)
    /\ (Forall rule_checked (compatibilityRules template) ->
        Forall rule_checked (compatibilityRules (f template)))
    /\ (base_price template <> 0%Z -> base_price (f template) <> 0%Z).



(** The available options as the specification words them: the whole
    mapping of the category in insertion order. *)
Definition spec_availableOptions (m : list (string * ProductOption)) : list Summary.t :=
  map (fun entry => Summary.mk (name entry.2) entry.1 (price_delta entry.2)) m.

(** ** A running example: the chair *)

Definition chair : Template :=
  {| compatibilityRules := [mkRule "REQUIRES" "legs_wood" "finish_oak"];
     options :=
       mkOptions
         {[ "legs" := [("legs_wood", mkOption "Wooden legs" 10)];
            "finish" := [("finish_oak", mkOption "Oak finish" 20);
                         ("finish_pine", mkOption "Pine finish" 5)] ]}
         None;
     base_price := 100 |}.

Definition chair_store : Store := mkStore {[ "chair" := chair ]} None.

Definition chair_selections : list (string * string) :=
  [("legs_wood", "legs_wood"); ("finish_oak", "finish_oak")].

(** A shelf whose sizes were sent as [{"wide": .., "10": .., "2": ..}]. *)
Definition shelf_sizes : list (string * ProductOption) :=
  [("wide", mkOption "Wide" 30); ("10", mkOption "Ten" 10); ("2", mkOption "Two" 2)].

Definition shelf : Template :=
  {| compatibilityRules := [];
     options := mkOptions {[ "size" := shelf_sizes ]} None;
     base_price := 50 |}.

Definition shelf_store : Store := mkStore {[ "shelf" := shelf ]} None.

(** ** Request validation: facts *)

(** A body that does not carry its one required field is rejected, whatever
    the type of the field. *)
Lemma validateRequestBody_undefined {A : Type} `{ToBoolean A} (fname : string) :
  validateRequestBody [fname] (field_of fname (@None A))
  = Some ("Missing required fields: " +:+ fname).
Proof.
  unfold validateRequestBody, field_of. simpl.
  rewrite andb_false_r. reflexivity.
Qed.

(** A body whose one required field is truthy passes. *)
Lemma validateRequestBody_truthy {A : Type} `{ToBoolean A} (fname : string) (v : A) :
  truthy v = true ->
  validateRequestBody [fname] (field_of fname (Some v)) = None.
Proof.
  intros Hv. unfold validateRequestBody, field_of. simpl.
  rewrite bool_decide_eq_true_2 by reflexivity.
  change (truthy (Some v)) with (truthy v). rewrite Hv. reflexivity.
Qed.

(** A body whose one required field is falsy is rejected as if the field
    were missing. *)
Lemma validateRequestBody_falsy {A : Type} `{ToBoolean A} (fname : string) (v : A) :
  truthy v = false ->
  validateRequestBody [fname] (field_of fname (Some v))
  = Some ("Missing required fields: " +:+ fname).
Proof.
  intros Hv. unfold validateRequestBody, field_of. simpl.
  rewrite bool_decide_eq_true_2 by reflexivity.
  change (truthy (Some v)) with (truthy v). rewrite Hv. reflexivity.
Qed.

Lemma validateRequestBody_None_iff (requiredFields : list string)
    (body : string -> bool) :
  validateRequestBody requiredFields body = None
  <-> forallb body requiredFields = true.
Proof.
  unfold validateRequestBody.
  induction requiredFields as [|field fields IH]; simpl; [done|].
  destruct (body field); simpl; [exact IH|].
  split; discriminate.
Qed.

Lemma rule_fields_all (ty p s : option string) :
  forallb (rule_fields (RuleBody.mk ty p s))
    ["rule_type"; "primary_choice_str_id"; "secondary_choice_str_id"]
  = truthy ty && truthy p && truthy s.
Proof.
  unfold rule_fields, field_of. simpl.
  destruct (truthy ty), (truthy p), (truthy s); reflexivity.
Qed.

Lemma truthy_string (s : string) : truthy (Some s) = true <-> s <> "".
Proof.
  change (truthy (Some s)) with (negb (String.eqb s "")).
  rewrite negb_true_iff. apply String.eqb_neq.
Qed.

Lemma truthy_number (p : Z) : truthy p = true <-> p <> 0%Z.
Proof.
  unfold truthy, number_truthy. rewrite negb_true_iff. apply Z.eqb_neq.
Qed.

(** ** Reading by key: facts *)

Lemma lookupTemplate_stored (store : Store) (t : string) (template : Template) :
  templates store !! t = Some template ->
  lookupTemplate store t = Stored template.
Proof. intros Ht. unfold lookupTemplate. by rewrite Ht. Qed.

Lemma lookupTemplate_Stored_inv (store : Store) (t : string) (template : Template) :
  lookupTemplate store t = Stored template ->
  templates store !! t = Some template.
Proof.
  unfold lookupTemplate. destruct (templates store !! t); [congruence|].
  repeat case_bool_decide; try discriminate;
    destruct (prototype_base_price store); discriminate.
Qed.

(** An identifier that is neither stored nor inherited is missing. *)
Lemma lookupTemplate_plain (store : Store) (t : string) :
  templates store !! t = None ->
  inherits (lookupTemplate store t) = false ->
  lookupTemplate store t = Missing.
Proof.
  intros Ht. pose proof (lookupTemplate_Stored_inv store t) as Hinv.
  destruct (lookupTemplate store t) as [template| | | |]; simpl; try done.
  specialize (Hinv template eq_refl). congruence.
Qed.

Lemma lookupTemplate_storeTemplate (store : Store) (t : string) (template : Template) :
  lookupTemplate (storeTemplate store t template) t = Stored template.
Proof. apply lookupTemplate_stored. simpl. apply lookup_insert_eq. Qed.

(** A member of [Object.prototype] that is not stored is found there. *)
Lemma lookupTemplate_member (store : Store) (t : string) :
  t ∈ prototype_members ->
  templates store !! t = None ->
  absent (lookupTemplate store t) = false
  /\ inherits (lookupTemplate store t) = true.
Proof.
  intros Hin Ht. unfold lookupTemplate. rewrite Ht.
  case_bool_decide; [done|]. case_bool_decide; [done|].
  unfold prototype_members in Hin. apply elem_of_cons in Hin as [->|Hin]; done.
Qed.

Lemma absent_not_member (store : Store) (t : string) :
  absent (lookupTemplate store t) = true -> t ∉ prototype_members.
Proof.
  intros Habsent Hin.
  destruct (templates store !! t) as [template|] eqn:Ht.
  - by rewrite (lookupTemplate_stored _ _ _ Ht) in Habsent.
  - destruct (lookupTemplate_member store t Hin Ht) as [Hpresent _]. congruence.
Qed.

(** ** Rule evaluation: facts *)

Lemma ruleSatisfied_empty (rule : Rule) : ruleSatisfied [] rule = true.
Proof.
  unfold ruleSatisfied. simpl. by rewrite !andb_false_r.
Qed.

Lemma ruleSatisfied_other_type (sel : list (string * string)) (rule : Rule) :
  rule_type rule <> "REQUIRES" -> rule_type rule <> "INCOMPATIBLE_WITH" ->
  ruleSatisfied sel rule = true.
Proof.
  intros Hreq Hinc. unfold ruleSatisfied.
  by rewrite (bool_decide_eq_false_2 (rule_type rule = "REQUIRES")),
             (bool_decide_eq_false_2 (rule_type rule = "INCOMPATIBLE_WITH")).
Qed.

Lemma all_rules_satisfied_empty (rules : list Rule) :
  forallb (ruleSatisfied []) rules = true.
Proof.
  induction rules as [|rule rules IH]; simpl; [reflexivity|].
  by rewrite ruleSatisfied_empty, IH.
Qed.

(** C2. A REQUIRES rule whose primary choice is selected is satisfied exactly
    when its secondary choice is selected; an INCOMPATIBLE_WITH rule whose
    primary choice is selected is satisfied exactly when its secondary choice
    is not selected; a rule whose primary choice is not selected is
    satisfied; a rule of any other type is satisfied. *)
Theorem ruleSatisfied_semantics (selectionContext : list (string * string))
    (rule : Rule) :
  (rule_type rule = "REQUIRES" ->
   selected selectionContext (primary_choice_str_id rule) ->
   (ruleSatisfied selectionContext rule = true
    <-> selected selectionContext (secondary_choice_str_id rule)))
  /\ (rule_type rule = "INCOMPATIBLE_WITH" ->
      selected selectionContext (primary_choice_str_id rule) ->
      (ruleSatisfied selectionContext rule = true
       <-> ~ selected selectionContext (secondary_choice_str_id rule)))
  /\ (~ selected selectionContext (primary_choice_str_id rule) ->
      ruleSatisfied selectionContext rule = true)
  /\ (rule_type rule <> "REQUIRES" -> rule_type rule <> "INCOMPATIBLE_WITH" ->
      ruleSatisfied selectionContext rule = true).
Proof.
  unfold selected, ruleSatisfied.
  destruct rule as [ty p s]; simpl.
  repeat split.
  - intros Hsat. subst ty.
    rewrite !bool_decide_eq_true_2 in Hsat by done. simpl in Hsat.
    by apply bool_decide_eq_true_1 in Hsat.
  - intros Hs. subst ty.
    rewrite !bool_decide_eq_true_2 by done. reflexivity.
  - intros Hsat Hs. subst ty.
    rewrite (bool_decide_eq_false_2 ("INCOMPATIBLE_WITH" = "REQUIRES")) in Hsat
      by discriminate.
    rewrite !bool_decide_eq_true_2 in Hsat by done. discriminate.
  - intros Hs. subst ty.
    rewrite (bool_decide_eq_false_2 ("INCOMPATIBLE_WITH" = "REQUIRES"))
      by discriminate.
    rewrite (bool_decide_eq_true_2 ("INCOMPATIBLE_WITH" = "INCOMPATIBLE_WITH"))
      by reflexivity.
    rewrite (bool_decide_eq_true_2 (obj_get p selectionContext = Some p)) by done.
    by rewrite bool_decide_eq_false_2.
  - intros Hp.
    rewrite (bool_decide_eq_false_2 (obj_get p selectionContext = Some p)) by done.
    by rewrite !andb_false_r.
  - intros Hreq Hinc.
    by apply (ruleSatisfied_other_type selectionContext (mkRule ty p s)).
Qed.

Lemma ruleSatisfied_semantics_witness :
  (ruleSatisfied [("a", "a"); ("b", "b")] (mkRule "REQUIRES" "a" "b") = true
   <-> selected [("a", "a"); ("b", "b")] "b")
  /\ (ruleSatisfied [("a", "a")] (mkRule "INCOMPATIBLE_WITH" "a" "b") = true
      <-> ~ selected [("a", "a")] "b")
  /\ ruleSatisfied [("a", "x")] (mkRule "REQUIRES" "a" "b") = true
  /\ ruleSatisfied [("a", "a")] (mkRule "EXCLUDES" "a" "b") = true.
Proof.
  split; [|split; [|split]].
  - apply (proj1 (ruleSatisfied_semantics
                    [("a", "a"); ("b", "b")] (mkRule "REQUIRES" "a" "b")));
      reflexivity.
  - apply (proj1 (proj2 (ruleSatisfied_semantics
                           [("a", "a")] (mkRule "INCOMPATIBLE_WITH" "a" "b"))));
      reflexivity.
  - apply (proj1 (proj2 (proj2 (ruleSatisfied_semantics
                                  [("a", "x")] (mkRule "REQUIRES" "a" "b"))))).
    unfold selected. vm_compute. intros H. discriminate H.
  - apply (proj2 (proj2 (proj2 (ruleSatisfied_semantics
                                  [("a", "a")] (mkRule "EXCLUDES" "a" "b")))));
      simpl; discriminate.
Defined.

(** ** Option filtering: facts *)

Lemma keepOption_const (template : Template) (sel : list (string * string))
    (entry : string * ProductOption) :
  keepOption template sel entry
  = forallb (ruleSatisfied sel) (compatibilityRules template).
Proof. by destruct entry. Qed.

Lemma filter_keepOption (template : Template) (sel : list (string * string))
    (o : list (string * ProductOption)) :
  List.filter (keepOption template sel) o
  = if forallb (ruleSatisfied sel) (compatibilityRules template) then o else [].
Proof.
  induction o as [|entry o IH]; simpl.
  - by destruct (forallb _ _).
  - rewrite IH, keepOption_const. by destruct (forallb _ _).
Qed.

Lemma categoryEntries_plain (store : Store) (template : Template) (c : string) :
  plainCategory store (options template) c = true ->
  categoryEntries store template c
  = Some (own_entries (default [] (categories (options template) !! c))).
Proof.
  unfold plainCategory, categoryEntries, lookupCategory.
  destruct (categories (options template) !! c) as [m|]; simpl; [done|].
  destruct (prototype (options template) ≫= obj_get c); [discriminate|].
  case_bool_decide.
  { destruct (prototype (options template)); discriminate. }
  case_bool_decide; [discriminate|].
  destruct (prototype_base_price store); [|done].
  case_bool_decide; [discriminate|done].
Qed.

Lemma getAvailableOptions_found (store : Store) (t c : string)
    (template : Template) (sel : list (string * string)) :
  templates store !! t = Some template ->
  getAvailableOptions store t c (Some sel)
  = match categoryEntries store template c with
    | Some entries =>
        Some (mkResponse 200 (Options (availableOptions template entries sel)))
    | None => None
    end.
Proof.
  intros Ht. unfold getAvailableOptions.
  rewrite validateRequestBody_truthy by reflexivity.
  by rewrite (lookupTemplate_stored _ _ _ Ht).
Qed.

(** An identifier that is neither stored nor inherited is answered 404. *)
Lemma getAvailableOptions_not_found (store : Store) (t c : string)
    (sel : list (string * string)) :
  templates store !! t = None ->
  inherits (lookupTemplate store t) = false ->
  getAvailableOptions store t c (Some sel)
  = Some (mkResponse 404 (Error "Template not found.")).
Proof.
  intros Ht Hplain. unfold getAvailableOptions.
  rewrite validateRequestBody_truthy by reflexivity.
  by rewrite (lookupTemplate_plain _ _ Ht Hplain).
Qed.

(** A stored template without the category, asked for a plain category
    name, is answered the empty list. *)
Lemma getAvailableOptions_no_category (store : Store) (t c : string)
    (template : Template) (sel : list (string * string)) :
  templates store !! t = Some template ->
  categories (options template) !! c = None ->
  plainCategory store (options template) c = true ->
  getAvailableOptions store t c (Some sel) = Some (mkResponse 200 (Options [])).
Proof.
  intros Ht Hc Hplain.
  rewrite (getAvailableOptions_found _ _ _ _ _ Ht).
  rewrite (categoryEntries_plain _ _ _ Hplain), Hc. reflexivity.
Qed.

(** C5. Appending a rule to a template's rule list changes nothing in what
    [Object.entries] gives for a target category, and leaves the sequence
    of available options, for the same selections, a subsequence of what
    it was. *)
Theorem availableOptions_pushRule_sublist (store : Store) (template : Template)
    (rule : Rule) (c : string) (entries : list (string * ProductOption))
    (sel : list (string * string)) :
  categoryEntries store (pushRule rule template) c = categoryEntries store template c
  /\ availableOptions (pushRule rule template) entries sel
       `sublist_of` availableOptions template entries sel.
Proof.
  split; [reflexivity|].
  unfold availableOptions. rewrite !filter_keepOption. simpl.
  rewrite forallb_app. simpl.
  destruct (forallb (ruleSatisfied sel) (compatibilityRules template)); simpl.
  - destruct (ruleSatisfied sel rule); simpl; [reflexivity | apply sublist_nil_l].
  - reflexivity.
Qed.

(** C10. A request to the available-options route without
    [currentSelections], or to the validate-configuration route without
    [selections], is answered with the missing-field error whatever the
    store holds: the check runs before the template is looked up, so an
    unknown template does not turn the answer into not-found. *)
Theorem missing_field_checked_before_lookup (store : Store) (t c : string) :
  getAvailableOptions store t c None
  = Some (mkResponse 400 (Error "Missing required fields: currentSelections"))
  /\ validateConfiguration store t None
     = Some (mkResponse 400 (Error "Missing required fields: selections")).
Proof.
  unfold getAvailableOptions, validateConfiguration.
  rewrite !validateRequestBody_undefined. split; reflexivity.
Qed.

(** C9, as the code has it. For a stored template and a target category
    that is an own property of its options or resolves to nothing, the
    filter callback gives the same verdict for every entry, so the route
    returns the whole option mapping of the category, in the order of
    [Object.entries], when every rule is satisfied by the current
    selections, and the empty sequence otherwise. Each element carries the
    name, the choice identifier and the price delta of its entry. *)
Theorem getAvailableOptions_all_or_nothing (store : Store)
    (t c : string) (template : Template) (sel : list (string * string)) :
  templates store !! t = Some template ->
  plainCategory store (options template) c = true ->
  (forall entry entry' : string * ProductOption,
     keepOption template sel entry = keepOption template sel entry')
  /\ getAvailableOptions store t c (Some sel)
     = Some (mkResponse 200
         (Options
            (if forallb (ruleSatisfied sel) (compatibilityRules template)
             then map (fun entry =>
                         {| Summary.name := name entry.2;
                            Summary.choice_str_id := entry.1;
                            Summary.price_delta := price_delta entry.2 |})
                      (own_entries (default [] (categories (options template) !! c)))
             else []))).
Proof.
  intros Ht Hplain. split.
  - intros entry entry'. by rewrite !keepOption_const.
  - rewrite (getAvailableOptions_found _ _ _ _ _ Ht).
    rewrite (categoryEntries_plain _ _ _ Hplain).
    unfold availableOptions. rewrite filter_keepOption.
    destruct (forallb _ _); [|reflexivity].
    do 3 f_equal. apply map_ext. by intros [choice option].
Qed.

Lemma getAvailableOptions_all_or_nothing_witness :
  getAvailableOptions shelf_store "shelf" "size" (Some [("wide", "wide")])
  = Some (mkResponse 200
      (Options [Summary.mk "Two" "2" 2; Summary.mk "Ten" "10" 10;
                Summary.mk "Wide" "wide" 30])).
Proof.
  refine (proj2 (getAvailableOptions_all_or_nothing
                   shelf_store "shelf" "size" shelf [("wide", "wide")] _ _));
    reflexivity.
Defined.

(** C9, as stated, fails on the shelf: the sizes were inserted as [wide],
    [10], [2]; every rule is satisfied; the route lists them as [2], [10],
    [wide]. *)
Lemma getAvailableOptions_insertion_order_counterexample :
  categories (options shelf) !! "size" = Some shelf_sizes
  /\ forallb (ruleSatisfied []) (compatibilityRules shelf) = true
  /\ getAvailableOptions shelf_store "shelf" "size" (Some [])
     = Some (mkResponse 200
         (Options [Summary.mk "Two" "2" 2; Summary.mk "Ten" "10" 10;
                   Summary.mk "Wide" "wide" 30]))
  /\ getAvailableOptions shelf_store "shelf" "size" (Some [])
     <> Some (mkResponse 200 (Options (spec_availableOptions shelf_sizes))).
Proof.
  split; [reflexivity|]. split; [reflexivity|]. split; [reflexivity|].
  vm_compute. intros H. discriminate H.
Qed.

(** ** The mutations: facts *)

Lemma setBasePrice_accepted (base_price : option Z) :
  validateRequestBody ["base_price"] (field_of "base_price" base_price) = None ->
  exists p : Z, base_price = Some p /\ p <> 0%Z.
Proof.
  intros E. apply validateRequestBody_None_iff in E.
  unfold field_of in E. simpl in E. rewrite andb_true_r in E.
  destruct base_price as [p|]; [|discriminate].
  exists p. split; [reflexivity|]. by apply truthy_number.
Qed.

(** A mutation request leaves the store as it was, or writes one template
    (the stored one, or a new empty one under a name that is no member of
    [Object.prototype]) after a gentle change, or writes a non-zero
    [Object.prototype.base_price]. *)
Lemma perform_cases (store : Store) (m : Mutation) :
  perform store m = store
  \/ (exists (f : Template -> Template) (before : Template),
        gentle f
        /\ perform store m = storeTemplate store (mutated m) (f before)
        /\ (templates store !! mutated m = Some before
            \/ (templates store !! mutated m = None
                /\ before = emptyTemplate
                /\ mutated m ∉ prototype_members)))
  \/ (exists p : Z,
        p <> 0%Z
        /\ perform store m
           = {| templates := templates store; prototype_base_price := Some p |}).
Proof.
  assert (forall f, gentle f ->
            forall l, l = lookupTemplate store (mutated m) ->
            match l with
            | Stored template =>
                exists before,
                  storeTemplate store (mutated m) (f template)
                  = storeTemplate store (mutated m) (f before)
                  /\ (templates store !! mutated m = Some before
                      \/ (templates store !! mutated m = None
                          /\ before = emptyTemplate
                          /\ mutated m ∉ prototype_members))
            | _ => absent l = true ->
                   templates store !! mutated m = None
                   /\ mutated m ∉ prototype_members
            end) as Hlookup.
  { intros f _ l ->.
    destruct (lookupTemplate store (mutated m)) as [template| | | |] eqn:El;
      try (intros Habsent; split;
           [ destruct (templates store !! mutated m) as [template|] eqn:Ht;
             [by rewrite (lookupTemplate_stored _ _ _ Ht) in El | reflexivity]
           | apply (absent_not_member store); by rewrite El ]).
    exists template. split; [reflexivity|]. left.
    by apply lookupTemplate_Stored_inv. }
  destruct m as [t [ty p s]|t body|t c body]; simpl in *.
  - unfold addCompatibilityRule.
    destruct (validateRequestBody _ _) eqn:E; simpl; [by left|].
    apply validateRequestBody_None_iff in E. rewrite rule_fields_all in E.
    apply andb_true_iff in E as [E Hs]. apply andb_true_iff in E as [Hty Hp].
    destruct ty as [ty|]; [|discriminate].
    destruct p as [p|]; [|discriminate].
    destruct s as [s|]; [|discriminate].
    apply truthy_string in Hty, Hp, Hs. simpl.
    assert (gentle (pushRule (mkRule ty p s))) as Hgentle.
    { intros template. simpl. split; [by apply prefix_app_r|]. split; [|done].
      intros Hall. apply Forall_app. split; [exact Hall|]. by repeat constructor. }
    specialize (Hlookup _ Hgentle _ eq_refl).
    destruct (lookupTemplate store t) as [template| | | |]; simpl in *;
      try (by left).
    + destruct Hlookup as (before & Heq & Hbefore).
      right; left. exists (pushRule (mkRule ty p s)), before. by rewrite Heq.
    + destruct (negb (truthy p0)) eqn:Ep; simpl; [|by left].
      destruct (Hlookup eq_refl) as [Ht Hmember].
      right; left. exists (pushRule (mkRule ty p s)), emptyTemplate. eauto 10.
    + destruct (Hlookup eq_refl) as [Ht Hmember].
      right; left. exists (pushRule (mkRule ty p s)), emptyTemplate. eauto 10.
  - unfold setBasePrice.
    destruct (validateRequestBody _ _) eqn:E; simpl; [by left|].
    destruct (setBasePrice_accepted _ E) as (p & -> & Hnz). simpl.
    assert (gentle (assignBasePrice p)) as Hgentle.
    { intros template. simpl. by repeat split. }
    specialize (Hlookup _ Hgentle _ eq_refl).
    destruct (lookupTemplate store t) as [template| | | |]; simpl in *;
      try (by left).
    + destruct Hlookup as (before & Heq & Hbefore).
      right; left. exists (assignBasePrice p), before. by rewrite Heq.
    + right; right. by exists p.
    + destruct (negb (truthy p0)) eqn:Ep; simpl; [|by left].
      destruct (Hlookup eq_refl) as [Ht Hmember].
      right; left. exists (assignBasePrice p), emptyTemplate. eauto 10.
    + destruct (Hlookup eq_refl) as [Ht Hmember].
      right; left. exists (assignBasePrice p), emptyTemplate. eauto 10.
  - unfold addOptions.
    destruct (validateRequestBody _ _) eqn:E; simpl; [by left|].
    assert (gentle (assignOptions c (default [] body))) as Hgentle.
    { intros template. simpl. by repeat split. }
    specialize (Hlookup _ Hgentle _ eq_refl).
    destruct (lookupTemplate store t) as [template| | | |]; simpl in *;
      try (by left).
    + destruct Hlookup as (before & Heq & Hbefore).
      right; left. exists (assignOptions c (default [] body)), before.
      by rewrite Heq.
    + destruct (negb (truthy p)) eqn:Ep; simpl; [|by left].
      destruct (Hlookup eq_refl) as [Ht Hmember].
      right; left. exists (assignOptions c (default [] body)), emptyTemplate.
      eauto 10.
    + destruct (Hlookup eq_refl) as [Ht Hmember].
      right; left. exists (assignOptions c (default [] body)), emptyTemplate.
      eauto 10.
Qed.

(** No request stores a template under the name of a member of
    [Object.prototype]. *)
Lemma perform_member_not_stored (store : Store) (m : Mutation) (t : string) :
  t ∈ prototype_members ->
  templates store !! t = None ->
  templates (perform store m) !! t = None.
Proof.
  intros Hin Ht.
  destruct (perform_cases store m)
    as [->|[(f & before & _ & -> & Hbefore)|(p & _ & ->)]]; [done| |done].
  simpl. rewrite lookup_insert_ne; [done|]. intros <-.
  destruct Hbefore as [Hsome|(_ & _ & Hnot)]; [congruence|done].
Qed.

Lemma history_member_not_stored (ms : list Mutation) (t : string) :
  t ∈ prototype_members -> templates (history ms) !! t = None.
Proof.
  intros Hin. unfold history.
  assert (forall store, templates store !! t = None ->
                        templates (foldl perform store ms) !! t = None) as Hfold.
  { induction ms as [|m ms IH]; intros store Ht; simpl; [done|].
    apply IH. by apply perform_member_not_stored. }
  by apply Hfold.
Qed.

(** C6, at the identifier [constructor]: whatever requests were served
    before, the available-options route does not answer not-found for it:
    [templates] inherits a value under that name, the handler takes it for
    a template and throws, and the answer is 500. *)
Theorem getAvailableOptions_constructor_throws (ms : list Mutation) (c : string)
    (sel : list (string * string)) :
  getAvailableOptions (history ms) "constructor" c (Some sel)
  = Some (mkResponse 500 Thrown).
Proof.
  unfold getAvailableOptions.
  rewrite validateRequestBody_truthy by reflexivity.
  unfold lookupTemplate.
  rewrite history_member_not_stored by (vm_compute; set_solver).
  reflexivity.
Qed.

(** C7, at the base price 0: the request carries [base_price], and the route
    answers that the field is missing and leaves the store as it was. *)
Theorem setBasePrice_zero_rejected (store : Store) (t : string) :
  setBasePrice store t (Some 0%Z)
  = (store, mkResponse 400 (Error "Missing required fields: base_price")).
Proof.
  unfold setBasePrice, body_base_price.
  rewrite validateRequestBody_falsy by reflexivity.
  reflexivity.
Qed.

(** C8, at the identifier [constructor]: whatever requests were served
    before, the add-options request is answered 500 and stores nothing,
    and the available-options request that follows is answered 500, not
    the option that was sent. *)
Theorem addOptions_constructor_throws (ms : list Mutation) (c : string) :
  addOptions (history ms) "constructor" c (Some [("x", mkOption "X" 5)])
  = (history ms, mkResponse 500 Thrown)
  /\ getAvailableOptions
       (addOptions (history ms) "constructor" c (Some [("x", mkOption "X" 5)])).1
       "constructor" c (Some [])
     = Some (mkResponse 500 Thrown).
Proof.
  assert (lookupTemplate (history ms) "constructor" = BuiltinFunction) as Hl.
  { unfold lookupTemplate.
    rewrite history_member_not_stored by (vm_compute; set_solver).
    reflexivity. }
  assert (addOptions (history ms) "constructor" c (Some [("x", mkOption "X" 5)])
          = (history ms, mkResponse 500 Thrown)) as Hadd.
  { unfold addOptions. rewrite validateRequestBody_truthy by reflexivity.
    by rewrite Hl. }
  split; [exact Hadd|]. rewrite Hadd. simpl.
  unfold getAvailableOptions.
  rewrite validateRequestBody_truthy by reflexivity. by rewrite Hl.
Qed.

(** ** Configuration validation: the violation list *)

Lemma append_assoc (s1 s2 s3 : string) : (s1 +:+ s2) +:+ s3 = s1 +:+ s2 +:+ s3.
Proof.
  induction s1 as [|c s1 IH]; [reflexivity|].
  change (String c ((s1 +:+ s2) +:+ s3) = String c (s1 +:+ s2 +:+ s3)).
  by f_equal.
Qed.

(** An identifier between quotes, followed by more text, character by
    character. *)
Lemma quoted_spelled (s rest : string) :
  quoted s +:+ rest
  = String (Ascii.ascii_of_nat 34) (s +:+ String (Ascii.ascii_of_nat 34) rest).
Proof.
  change (quoted s +:+ rest)
    with (String (Ascii.ascii_of_nat 34)
            ((s +:+ String (Ascii.ascii_of_nat 34) "") +:+ rest)).
  by rewrite append_assoc.
Qed.

Section Violations.
Context (selections : list (string * string)).

Lemma checkRule_push (errors : list string) (rule : Rule) :
  checkRule selections errors rule
  = errors ++ (if ruleSatisfied selections rule then [] else [violationMessage rule]).
Proof.
  unfold checkRule, ruleSatisfied, violationMessage.
  destruct rule as [ty p s]; simpl.
  destruct (decide (ty = "REQUIRES")) as [->|Hreq].
  - rewrite (bool_decide_eq_true_2 ("REQUIRES" = "REQUIRES")) by reflexivity.
    rewrite (bool_decide_eq_false_2 ("REQUIRES" = "INCOMPATIBLE_WITH")) by discriminate.
    simpl.
    destruct (bool_decide (obj_get p selections = Some p));
      destruct (bool_decide (obj_get s selections = Some s)); simpl;
      by rewrite ?app_nil_r.
  - rewrite (bool_decide_eq_false_2 (ty = "REQUIRES")) by exact Hreq. simpl.
    destruct (bool_decide (ty = "INCOMPATIBLE_WITH"));
      destruct (bool_decide (obj_get p selections = Some p));
      destruct (bool_decide (obj_get s selections = Some s)); simpl;
      by rewrite ?app_nil_r.
Qed.

Lemma foldl_checkRule (rules : list Rule) (errors : list string) :
  foldl (checkRule selections) errors rules = errors ++ violations selections rules.
Proof.
  revert errors. unfold violations.
  induction rules as [|rule rules IH]; intros errors; simpl.
  - by rewrite app_nil_r.
  - rewrite IH, checkRule_push.
    destruct (ruleSatisfied selections rule); simpl.
    + by rewrite app_nil_r.
    + by rewrite <- app_assoc.
Qed.

Lemma violations_nil_iff (rules : list Rule) :
  violations selections rules = []
  <-> forallb (ruleSatisfied selections) rules = true.
Proof.
  unfold violations. induction rules as [|rule rules IH]; simpl; [done|].
  destruct (ruleSatisfied selections rule); simpl; [exact IH|].
  split; discriminate.
Qed.

Lemma violations_app (rules : list Rule) (rule : Rule) :
  violations selections (rules ++ [rule])
  = violations selections rules
    ++ (if ruleSatisfied selections rule then [] else [violationMessage rule]).
Proof.
  unfold violations. rewrite List.filter_app, map_app. simpl.
  by destruct (ruleSatisfied selections rule).
Qed.

End Violations.

Lemma validate_violated (store : Store) (template : Template)
    (selections : list (string * string)) :
  forallb (ruleSatisfied selections) (compatibilityRules template) = false ->
  validate store template selections
  = Some (mkResponse 400
            (Invalid (violations selections (compatibilityRules template)))).
Proof.
  intros Hviol. unfold validate. rewrite foldl_checkRule. simpl.
  destruct (violations selections (compatibilityRules template)) eqn:E; simpl.
  - apply violations_nil_iff in E. congruence.
  - reflexivity.
Qed.

Lemma validateConfiguration_found (store : Store) (t : string)
    (template : Template) (selections : list (string * string)) :
  templates store !! t = Some template ->
  validateConfiguration store t (Some selections)
  = validate store template selections.
Proof.
  intros Ht. unfold validateConfiguration.
  rewrite validateRequestBody_truthy by reflexivity.
  by rewrite (lookupTemplate_stored _ _ _ Ht).
Qed.

(** C3. When some rule of a stored template is violated by the selections,
    the route answers 400 with [is_valid] false and the messages of all the
    violated rules in the order of the rule list. The message of a REQUIRES
    rule is the primary identifier between double quotes (character 34), the
    word [requires] between spaces, and the secondary identifier between
    double quotes; that of an INCOMPATIBLE_WITH rule has the words
    [is incompatible with] in the middle. The list is not empty and the
    payload carries no price. *)
Theorem validateConfiguration_violations (store : Store)
    (t : string) (template : Template) (selections : list (string * string)) :
  templates store !! t = Some template ->
  forallb (ruleSatisfied selections) (compatibilityRules template) = false ->
  validateConfiguration store t (Some selections)
  = Some (mkResponse 400
      (Invalid
         (map (fun rule =>
                 if bool_decide (rule_type rule = "REQUIRES")
                 then String (Ascii.ascii_of_nat 34)
                        (primary_choice_str_id rule
                         +:+ String (Ascii.ascii_of_nat 34)
                               (" requires "
                                +:+ String (Ascii.ascii_of_nat 34)
                                      (secondary_choice_str_id rule
                                       +:+ String (Ascii.ascii_of_nat 34) "")))
                 else String (Ascii.ascii_of_nat 34)
                        (primary_choice_str_id rule
                         +:+ String (Ascii.ascii_of_nat 34)
                               (" is incompatible with "
                                +:+ String (Ascii.ascii_of_nat 34)
                                      (secondary_choice_str_id rule
                                       +:+ String (Ascii.ascii_of_nat 34) ""))))
              (List.filter (fun rule => negb (ruleSatisfied selections rule))
                           (compatibilityRules template)))))
  /\ List.filter (fun rule => negb (ruleSatisfied selections rule))
                 (compatibilityRules template) <> []
  /\ Forall (fun rule => rule_type rule = "REQUIRES"
                         \/ rule_type rule = "INCOMPATIBLE_WITH")
            (List.filter (fun rule => negb (ruleSatisfied selections rule))
                         (compatibilityRules template)).
Proof.
  intros Ht Hviol. split; [|split].
  - rewrite (validateConfiguration_found _ _ _ _ Ht).
    rewrite validate_violated by exact Hviol.
    do 3 f_equal. unfold violations. apply map_ext. intros rule.
    unfold violationMessage, requiresMessage, incompatibleMessage.
    destruct (bool_decide (rule_type rule = "REQUIRES"));
      rewrite quoted_spelled; reflexivity.
  - intros Hnil.
    assert (violations selections (compatibilityRules template) = []) as E
      by (unfold violations; by rewrite Hnil).
    apply violations_nil_iff in E. congruence.
  - apply Forall_forall. intros rule Hin.
    apply list_elem_of_In, filter_In in Hin as [_ Hr].
    apply negb_true_iff in Hr.
    destruct (decide (rule_type rule = "REQUIRES")) as [|Hreq]; [by left|].
    destruct (decide (rule_type rule = "INCOMPATIBLE_WITH")) as [|Hinc]; [by right|].
    rewrite ruleSatisfied_other_type in Hr; done.
Qed.

(** The chair store is what three kinds of requests leave behind. *)
Lemma chair_store_history :
  history
    [SetBasePrice "chair" (Some 100%Z);
     AddOptions "chair" "legs" (Some [("legs_wood", mkOption "Wooden legs" 10)]);
     AddOptions "chair" "finish"
       (Some [("finish_oak", mkOption "Oak finish" 20);
              ("finish_pine", mkOption "Pine finish" 5)]);
     AddCompatibilityRule "chair"
       (RuleBody.mk (Some "REQUIRES") (Some "legs_wood") (Some "finish_oak"))]
  = chair_store.
Proof. vm_compute. reflexivity. Qed.

Lemma validateConfiguration_violations_witness :
  validateConfiguration chair_store "chair" (Some [("legs_wood", "legs_wood")])
  = Some (mkResponse 400
      (Invalid
         [String (Ascii.ascii_of_nat 34)
            ("legs_wood"
             +:+ String (Ascii.ascii_of_nat 34)
                   (" requires "
                    +:+ String (Ascii.ascii_of_nat 34)
                          ("finish_oak" +:+ String (Ascii.ascii_of_nat 34) "")))])).
Proof.
  refine (proj1 (validateConfiguration_violations
                   chair_store "chair" chair [("legs_wood", "legs_wood")] _ _));
    reflexivity.
Defined.

(** C4. For every stored template, whatever its rules and base price, the
    empty selections are valid and their total is the base price. *)
Theorem validateConfiguration_empty_selections (store : Store)
    (t : string) (template : Template) :
  templates store !! t = Some template ->
  validateConfiguration store t (Some [])
  = Some (mkResponse 200 (Valid (Finite (base_price template)) [])).
Proof.
  intros Ht. rewrite (validateConfiguration_found _ _ _ _ Ht).
  unfold validate. rewrite foldl_checkRule. simpl.
  rewrite (proj2 (violations_nil_iff _ _) (all_rules_satisfied_empty _)). simpl.
  unfold js_or, truthy, number_truthy.
  by destruct (Z.eqb_spec (base_price template) 0) as [->|].
Qed.

Lemma validateConfiguration_empty_selections_witness :
  validateConfiguration chair_store "chair" (Some [])
  = Some (mkResponse 200 (Valid (Finite 100) [])).
Proof.
  apply (validateConfiguration_empty_selections chair_store "chair" chair).
  reflexivity.
Defined.

(** ** Enumeration order: facts *)

Lemma insert_index_Permutation {V : Type} (i : N) (e : string * V)
    (l : list (N * (string * V))) :
  insert_index i e l ≡ₚ (i, e) :: l.
Proof.
  induction l as [|[j e'] l IH]; simpl; [reflexivity|].
  destruct (i <=? j)%N; [reflexivity|].
  rewrite IH. apply Permutation_swap.
Qed.

(** [Object.entries] lists every own property once. *)
Lemma own_entries_Permutation {V : Type} (o : list (string * V)) :
  own_entries o ≡ₚ o.
Proof.
  unfold own_entries. induction o as [|e o IH]; simpl; [reflexivity|].
  destruct (array_index e.1) as [i|].
  - rewrite insert_index_Permutation. simpl. by rewrite IH.
  - rewrite <- Permutation_middle. by rewrite IH.
Qed.

(** Without array indices among the keys the order is that of creation. *)
Lemma own_entries_named {V : Type} (o : list (string * V)) :
  Forall (fun e => array_index e.1 = None) o -> own_entries o = o.
Proof.
  intros Hall.
  assert (indexed o = [] /\ named o = o) as [Hi Hn].
  { induction Hall as [|e o He _ [IHi IHn]]; simpl; [done|].
    rewrite He. by rewrite IHi, IHn. }
  unfold own_entries. by rewrite Hi, Hn.
Qed.

Lemma obj_get_NoDup {V : Type} (o : list (string * V)) (k : string) (v : V) :
  NoDup o.*1 -> (k, v) ∈ o -> obj_get k o = Some v.
Proof.
  induction o as [|[k' v'] o IH]; simpl; intros Hnd Hin.
  - by apply elem_of_nil in Hin.
  - apply NoDup_cons in Hnd as [Hnotin Hnd].
    apply elem_of_cons in Hin as [[= -> ->]|Hin].
    + by rewrite decide_True.
    + rewrite decide_False; [by apply IH|].
      intros ->. apply Hnotin. apply list_elem_of_fmap. by exists (k, v).
Qed.

(** ** Sums in the arithmetic of the machine: facts *)







(** ** Configuration validation: the price *)

Section Pricing.
Context (store : Store) (template : Template) (selections : list (string * string)).

(** An entry resolved by own properties alone is priced by the option it
    names, or not at all. *)
Lemma selectedOption_plain (entry : string * string) :
  obj_get entry.1 selections = Some entry.2 ->
  plainEntry store (options template) entry = true ->
  selectedOption store template selections entry.1
  = match entryOption template entry with
    | Some option => FoundOption option
    | None => NotFound
    end.
Proof.
  intros Hget Hplain. unfold selectedOption, entryOption. rewrite Hget.
  unfold plainEntry, plainCategory in Hplain.
  unfold lookupCategory in *.
  destruct (categories (options template) !! entry.1) as [m|]; simpl.
  - destruct (obj_get entry.2 m); [reflexivity|].
    by destruct (lookupMember store entry.2).
  - destruct (prototype (options template) ≫= obj_get entry.1); [discriminate|].
    case_bool_decide.
    { destruct (prototype (options template)); discriminate. }
    case_bool_decide; [discriminate|].
    destruct (prototype_base_price store); [|done].
    case_bool_decide; [discriminate|done].
Qed.

Lemma foldl_addPrice (entries : list (string * string)) (total : JsNumber) :
  Forall (fun entry => obj_get entry.1 selections = Some entry.2
                       /\ plainEntry store (options template) entry = true)
         entries ->
  foldl (addPrice store template selections) (Some total) entries.*1
  = Some (js_sum total (entryPrices template entries)).
Proof.
  intros Hall. revert total. unfold js_sum, entryPrices.
  induction Hall as [|entry entries [Hget Hplain] _ IH]; intros total; simpl.
  - reflexivity.
  - rewrite (selectedOption_plain _ Hget Hplain).
    destruct (entryOption template entry); simpl; apply IH.
Qed.

Lemma validate_satisfied :
  forallb (ruleSatisfied selections) (compatibilityRules template) = true ->
  NoDup selections.*1 ->
  forallb (plainEntry store (options template)) selections = true ->
  validate store template selections
  = Some (mkResponse 200
            (Valid (js_sum (Finite (base_price template))
                      (entryPrices template (own_entries selections)))
                   selections)).
Proof.
  intros Hsat Hnd Hplain. unfold validate. rewrite foldl_checkRule. simpl.
  rewrite (proj2 (violations_nil_iff _ _) Hsat). simpl.
  unfold own_keys. rewrite foldl_addPrice.
  - unfold js_or, truthy, number_truthy.
    by destruct (Z.eqb_spec (base_price template) 0) as [->|].
  - apply Forall_forall. intros [k v] Hin.
    rewrite own_entries_Permutation in Hin. split.
    + by apply obj_get_NoDup.
    + rewrite forallb_forall in Hplain. apply Hplain. by apply list_elem_of_In.
Qed.


End Pricing.




(** A value that names a member of [Object.prototype] is found, truthy
    and without a [price_delta]: the total is not a number. *)
Lemma validateConfiguration_inherited_choice :
  validateConfiguration chair_store "chair" (Some [("legs", "constructor")])
  = Some (mkResponse 200 (Valid NaN [("legs", "constructor")])).
Proof. reflexivity. Qed.

(** Past 2^53 the additions round. *)
Lemma validateConfiguration_rounds :
  validateConfiguration
    (mkStore {[ "vault" :=
                  mkTemplate [] (mkOptions {[ "door" := [("steel", mkOption "Steel" 1)] ]} None)
                             9007199254740992 ]} None)
    "vault" (Some [("door", "steel")])
  = Some (mkResponse 200 (Valid (Finite 9007199254740992) [("door", "steel")])).
Proof. vm_compute. reflexivity. Qed.

(** * Further properties of the routes *)

(** ** The body check *)

(** X1. The body check lets a request through exactly when every required
    field of its body is truthy. *)
Theorem validateRequestBody_passes_iff (requiredFields : list string)
    (body : string -> bool) :
  validateRequestBody requiredFields body = None
  <-> forallb body requiredFields = true.
Proof. apply validateRequestBody_None_iff. Qed.

(** ** Adding a rule *)

Lemma addCompatibilityRule_store (store : Store) (t : string) (ty p s : string) :
  ty <> "" -> p <> "" -> s <> "" ->
  inherits (lookupTemplate store t) = false ->
  addCompatibilityRule store t (RuleBody.mk (Some ty) (Some p) (Some s))
  = (storeTemplate store t
       (pushRule (mkRule ty p s) (default emptyTemplate (templates store !! t))),
     mkResponse 200 (Message "Compatibility rule added successfully.")).
Proof.
  intros Hty Hp Hs Hplain. unfold addCompatibilityRule.
  rewrite (proj2 (validateRequestBody_None_iff _ _))
    by (rewrite rule_fields_all; by rewrite !(proj2 (truthy_string _))).
  simpl. destruct (templates store !! t) as [template|] eqn:Ht.
  - by rewrite (lookupTemplate_stored _ _ _ Ht).
  - by rewrite (lookupTemplate_plain _ _ Ht Hplain).
Qed.

(** X2. For an identifier that [templates] does not inherit, a rule whose
    three fields are non-empty strings is acknowledged and appended after
    the rules the template already has; the template is created empty
    first when the identifier is new, its options and base price are kept,
    and nothing else in the store changes. *)
Theorem addCompatibilityRule_appends (store : Store) (t : string)
    (ty p s : string) :
  ty <> "" -> p <> "" -> s <> "" ->
  inherits (lookupTemplate store t) = false ->
  let before := default emptyTemplate (templates store !! t) in
  let result :=
    addCompatibilityRule store t (RuleBody.mk (Some ty) (Some p) (Some s)) in
  result.2 = mkResponse 200 (Message "Compatibility rule added successfully.")
  /\ (exists after : Template,
        templates result.1 !! t = Some after
        /\ compatibilityRules after = compatibilityRules before ++ [mkRule ty p s]
        /\ options after = options before
        /\ base_price after = base_price before)
  /\ (forall t' : string, t <> t' -> templates result.1 !! t' = templates store !! t')
  /\ prototype_base_price result.1 = prototype_base_price store.
Proof.
  intros Hty Hp Hs Hplain. simpl.
  rewrite (addCompatibilityRule_store _ _ _ _ _ Hty Hp Hs Hplain). simpl.
  split; [reflexivity|]. split; [|split; [|reflexivity]].
  - eexists. split; [apply lookup_insert_eq|]. by simpl.
  - intros t' Hne. by apply lookup_insert_ne.
Qed.

Lemma addCompatibilityRule_appends_witness :
  (addCompatibilityRule chair_store "chair"
     (RuleBody.mk (Some "INCOMPATIBLE_WITH") (Some "legs_wood") (Some "finish_pine"))).2
  = mkResponse 200 (Message "Compatibility rule added successfully.").
Proof.
  refine (proj1 (addCompatibilityRule_appends chair_store "chair"
                   "INCOMPATIBLE_WITH" "legs_wood" "finish_pine" _ _ _ _));
    [discriminate | discriminate | discriminate | reflexivity].
Defined.

(** X3. A rule body in which some field is missing or is the empty string
    is answered 400 with an error, and the store stays as it was: no
    template is created and no rule is pushed. *)
Theorem addCompatibilityRule_rejects (store : Store) (t : string)
    (ty p s : option string) :
  truthy ty && truthy p && truthy s = false ->
  exists validationError : string,
    addCompatibilityRule store t (RuleBody.mk ty p s)
    = (store, mkResponse 400 (Error validationError)).
Proof.
  intros Hfalsy. unfold addCompatibilityRule.
  destruct (validateRequestBody _ _) as [validationError|] eqn:E.
  - by exists validationError.
  - apply validateRequestBody_None_iff in E.
    rewrite rule_fields_all in E. congruence.
Qed.

Lemma addCompatibilityRule_rejects_witness :
  exists validationError : string,
    addCompatibilityRule chair_store "stool"
      (RuleBody.mk (Some "REQUIRES") (Some "") None)
    = (chair_store, mkResponse 400 (Error validationError)).
Proof.
  apply (addCompatibilityRule_rejects chair_store "stool"
           (Some "REQUIRES") (Some "") None).
  reflexivity.
Defined.

(** ** What every mutation keeps *)

Lemma reply_status (store : Store) (m : Mutation) :
  (status (reply store m) = 200
   /\ (inherits (lookupTemplate store (mutated m)) = false ->
       is_Some (templates (perform store m) !! mutated m)))
  \/ ((status (reply store m) = 400 \/ status (reply store m) = 500)
      /\ perform store m = store).
Proof.
  destruct m as [t body|t body|t c body]; simpl.
  - unfold addCompatibilityRule.
    destruct (validateRequestBody _ _); simpl; [right; by eauto|].
    destruct (lookupTemplate store t) as [template| | | |]; simpl;
      try (right; by eauto).
    + left. split; [reflexivity|]. intros _. rewrite lookup_insert_eq. eauto.
    + destruct (negb (truthy p)); simpl; [left|right; by eauto].
      split; [reflexivity|]. discriminate.
    + left. split; [reflexivity|]. intros _. rewrite lookup_insert_eq. eauto.
  - unfold setBasePrice.
    destruct (validateRequestBody _ _); simpl; [right; by eauto|].
    destruct (lookupTemplate store t) as [template| | | |]; simpl;
      try (left; split; [reflexivity | discriminate]).
    + left. split; [reflexivity|]. intros _. rewrite lookup_insert_eq. eauto.
    + destruct (negb (truthy p)); simpl; left; (split; [reflexivity | discriminate]).
    + left. split; [reflexivity|]. intros _. rewrite lookup_insert_eq. eauto.
  - unfold addOptions.
    destruct (validateRequestBody _ _); simpl; [right; by eauto|].
    destruct (lookupTemplate store t) as [template| | | |]; simpl;
      try (right; by eauto).
    + left. split; [reflexivity|]. intros _. rewrite lookup_insert_eq. eauto.
    + destruct (negb (truthy p)); simpl; [left|right; by eauto].
      split; [reflexivity|]. discriminate.
    + left. split; [reflexivity|]. intros _. rewrite lookup_insert_eq. eauto.
Qed.

(** X4. A mutation request is answered 200, 400 or 500. When it is answered
    400 or 500 the store is exactly what it was; when it is answered 200 and
    its identifier is not one that [templates] inherits, the template it
    names is in the store afterwards. *)
Theorem mutation_atomic (store : Store) (m : Mutation) :
  (status (reply store m) = 200 \/ status (reply store m) = 400
   \/ status (reply store m) = 500)
  /\ (status (reply store m) <> 200 -> perform store m = store)
  /\ (status (reply store m) = 200 ->
      inherits (lookupTemplate store (mutated m)) = false ->
      is_Some (templates (perform store m) !! mutated m)).
Proof.
  destruct (reply_status store m) as [[Hst Hstored]|[[Hst|Hst] Hsame]]; rewrite Hst.
  - split; [by left|]. split; [done|]. intros _. exact Hstored.
  - split; [right; by left|]. split; [done|]. discriminate.
  - split; [right; by right|]. split; [done|]. discriminate.
Qed.

Lemma mutation_atomic_witness :
  perform chair_store (AddOptions "toString" "legs" (Some [])) = chair_store
  /\ is_Some (templates (perform chair_store (SetBasePrice "stool" (Some 7%Z)))
              !! "stool").
Proof.
  split.
  - apply (proj1 (proj2 (mutation_atomic chair_store
                           (AddOptions "toString" "legs" (Some []))))).
    vm_compute. discriminate.
  - apply (proj2 (proj2 (mutation_atomic chair_store
                           (SetBasePrice "stool" (Some 7%Z)))));
      reflexivity.
Defined.

Lemma perform_stored (store : Store) (m : Mutation) (t : string) (template : Template) :
  templates store !! t = Some template ->
  exists template' : Template,
    templates (perform store m) !! t = Some template'
    /\ compatibilityRules template `prefix_of` compatibilityRules template'
    /\ (Forall rule_checked (compatibilityRules template) ->
        Forall rule_checked (compatibilityRules template'))
    /\ (base_price template <> 0%Z -> base_price template' <> 0%Z).
Proof.
  intros Ht.
  destruct (perform_cases store m)
    as [->|[(f & before & Hgentle & -> & Hbefore)|(p & _ & ->)]];
    [by exists template| |by exists template].
  simpl. destruct (decide (mutated m = t)) as [Heq|Hne].
  - rewrite Heq in *. rewrite lookup_insert_eq.
    destruct Hbefore as [Hsome|(Hnone & _)]; [|congruence].
    assert (before = template) as -> by congruence.
    exists (f template). split; [reflexivity|]. apply Hgentle.
  - rewrite lookup_insert_ne by done. by exists template.
Qed.

(** X5. Whatever mutation requests follow, a stored template stays stored
    and the rules it has stay where they are: its later rule list begins
    with its present one. No route deletes a template, or removes or
    reorders a rule. *)
Theorem rules_append_only (ms : list Mutation) (store : Store)
    (t : string) (template : Template) :
  templates store !! t = Some template ->
  exists template' : Template,
    templates (foldl perform store ms) !! t = Some template'
    /\ compatibilityRules template `prefix_of` compatibilityRules template'.
Proof.
  revert store template.
  induction ms as [|m ms IH]; intros store template Ht; simpl.
  - by exists template.
  - destruct (perform_stored store m t template Ht)
      as (template1 & Ht1 & Hprefix1 & _).
    destruct (IH _ _ Ht1) as (template' & Ht' & Hprefix').
    exists template'. split; [exact Ht'|]. by etrans.
Qed.

Lemma rules_append_only_witness :
  exists template' : Template,
    templates (foldl perform chair_store
      [AddOptions "chair" "legs" (Some []);
       SetBasePrice "__proto__" (Some 3%Z);
       AddCompatibilityRule "chair"
         (RuleBody.mk (Some "REQUIRES") (Some "a") (Some "b"))]) !! "chair"
    = Some template'
    /\ compatibilityRules chair `prefix_of` compatibilityRules template'.
Proof.
  apply (rules_append_only _ chair_store "chair" chair).
  reflexivity.
Defined.

Lemma perform_rules_checked (store : Store) (m : Mutation) :
  (forall t template, templates store !! t = Some template ->
                      Forall rule_checked (compatibilityRules template)) ->
  forall t template, templates (perform store m) !! t = Some template ->
                     Forall rule_checked (compatibilityRules template).
Proof.
  intros Hinv t template.
  destruct (perform_cases store m)
    as [->|[(f & before & Hgentle & -> & Hbefore)|(p & _ & ->)]];
    [apply (Hinv t)| |apply (Hinv t)].
  simpl. destruct (decide (mutated m = t)) as [Heq|Hne].
  - rewrite Heq in *. rewrite lookup_insert_eq. intros [= <-].
    apply Hgentle.
    destruct Hbefore as [Hsome|(_ & -> & _)]; [by apply (Hinv t)|constructor].
  - rewrite lookup_insert_ne by done. apply (Hinv t).
Qed.

(** X6. In every store that the service can reach from start-up, each
    stored rule has a non-empty type and non-empty primary and secondary
    identifiers: the body check keeps any other rule out. *)
Theorem stored_rules_checked (ms : list Mutation) (t : string)
    (template : Template) (rule : Rule) :
  templates (history ms) !! t = Some template ->
  rule ∈ compatibilityRules template ->
  rule_type rule <> ""
  /\ primary_choice_str_id rule <> ""
  /\ secondary_choice_str_id rule <> "".
Proof.
  intros Ht Hin.
  assert (forall (ms : list Mutation) (store : Store),
            (forall t template, templates store !! t = Some template ->
                                Forall rule_checked (compatibilityRules template)) ->
            forall t template, templates (foldl perform store ms) !! t = Some template ->
                               Forall rule_checked (compatibilityRules template))
    as Hfold.
  { clear. induction ms as [|m ms IH]; intros store Hinv; simpl; [exact Hinv|].
    apply IH. by apply perform_rules_checked. }
  assert (Forall rule_checked (compatibilityRules template)) as Hall.
  { apply (Hfold ms startup) with (t := t); [|exact Ht].
    intros t0 template0. simpl. by rewrite lookup_empty. }
  rewrite Forall_forall in Hall. by apply Hall.
Qed.

Lemma stored_rules_checked_witness :
  rule_type (mkRule "REQUIRES" "legs_wood" "finish_oak") <> ""
  /\ primary_choice_str_id (mkRule "REQUIRES" "legs_wood" "finish_oak") <> ""
  /\ secondary_choice_str_id (mkRule "REQUIRES" "legs_wood" "finish_oak") <> "".
Proof.
  apply (stored_rules_checked
           [SetBasePrice "chair" (Some 100%Z);
            AddCompatibilityRule "chair"
              (RuleBody.mk (Some "REQUIRES") (Some "legs_wood") (Some "finish_oak"))]
           "chair"
           (mkTemplate [mkRule "REQUIRES" "legs_wood" "finish_oak"]
                       (mkOptions ∅ None) 100)).
  - reflexivity.
  - simpl. apply list_elem_of_here.
Defined.

(** X20. A base price that is not zero cannot be brought back to zero:
    after any further mutation requests the template is stored with a
    non-zero base price, since a request to set it to 0 is refused. *)
Theorem base_price_never_reset (ms : list Mutation) (store : Store)
    (t : string) (template : Template) :
  templates store !! t = Some template ->
  base_price template <> 0%Z ->
  exists template' : Template,
    templates (foldl perform store ms) !! t = Some template'
    /\ base_price template' <> 0%Z.
Proof.
  revert store template.
  induction ms as [|m ms IH]; intros store template Ht Hp; simpl.
  - by exists template.
  - destruct (perform_stored store m t template Ht)
      as (template1 & Ht1 & _ & _ & Hp1).
    apply (IH _ template1 Ht1). by apply Hp1.
Qed.

Lemma base_price_never_reset_witness :
  exists template' : Template,
    templates (foldl perform chair_store
      [SetBasePrice "chair" (Some 0%Z); SetBasePrice "chair" None]) !! "chair"
    = Some template'
    /\ base_price template' <> 0%Z.
Proof.
  apply (base_price_never_reset _ chair_store "chair" chair).
  - reflexivity.
  - simpl. discriminate.
Defined.

(** ** Assigning base prices and options *)

Lemma lookupTemplate_ObjectPrototype_inv (store : Store) (t : string) :
  lookupTemplate store t = ObjectPrototype ->
  templates store !! t = None /\ t = "__proto__".
Proof.
  unfold lookupTemplate. destruct (templates store !! t); [discriminate|].
  case_bool_decide; [done|].
  case_bool_decide; [discriminate|].
  destruct (prototype_base_price store); [case_bool_decide|]; discriminate.
Qed.

Lemma storeTemplate_twice (store : Store) (t : string) (template template' : Template) :
  storeTemplate (storeTemplate store t template) t template'
  = storeTemplate store t template'.
Proof. unfold storeTemplate. simpl. by rewrite insert_insert_eq. Qed.

Lemma setBasePrice_set (store : Store) (t : string) (p : Z) :
  p <> 0%Z ->
  setBasePrice store t (Some p)
  = (match lookupTemplate store t with
     | Stored template => storeTemplate store t (assignBasePrice p template)
     | ObjectPrototype =>
         {| templates := templates store; prototype_base_price := Some p |}
     | l => if absent l then storeTemplate store t (assignBasePrice p emptyTemplate)
            else store
     end,
     mkResponse 200 (Message "Base price set successfully.")).
Proof.
  intros Hp. unfold setBasePrice, body_base_price.
  rewrite validateRequestBody_truthy by (by apply truthy_number).
  simpl. destruct (lookupTemplate store t) as [template| | |p0|]; try reflexivity.
  by destruct (negb (truthy p0)).
Qed.

(** X21. Setting a non-zero base price makes any earlier set-base-price
    request for the same identifier irrelevant: the store is what the last
    request alone would have left. *)
Theorem setBasePrice_overwrites (store : Store) (t : string)
    (own_base_price : option Z) (p : Z) :
  p <> 0%Z ->
  (setBasePrice (setBasePrice store t own_base_price).1 t (Some p)).1
  = (setBasePrice store t (Some p)).1.
Proof.
  intros Hp.
  assert (forall template,
            (setBasePrice (storeTemplate store t template) t (Some p)).1
            = storeTemplate store t (assignBasePrice p template)) as Hstored.
  { intros template.
    rewrite (setBasePrice_set _ _ _ Hp), lookupTemplate_storeTemplate.
    apply storeTemplate_twice. }
  rewrite (setBasePrice_set store _ _ Hp). cbn [fst].
  unfold setBasePrice at 2.
  destruct (validateRequestBody _ _) eqn:E; cbn [fst].
  { by rewrite (setBasePrice_set store _ _ Hp). }
  destruct (lookupTemplate store t) as [template| | |p0|] eqn:El; cbn [absent fst].
  - by rewrite Hstored.
  - by rewrite (setBasePrice_set store _ _ Hp), El.
  - destruct (lookupTemplate_ObjectPrototype_inv _ _ El) as [Ht ->].
    rewrite (setBasePrice_set _ _ _ Hp). unfold lookupTemplate. simpl.
    by rewrite Ht.
  - destruct (negb (truthy p0)) eqn:Ep; cbn [fst]; [by rewrite Hstored|].
    rewrite (setBasePrice_set store _ _ Hp), El. simpl. by rewrite Ep.
  - by rewrite Hstored.
Qed.

Lemma setBasePrice_overwrites_witness :
  (setBasePrice (setBasePrice chair_store "chair" (Some 250%Z)).1 "chair" (Some 80%Z)).1
  = (setBasePrice chair_store "chair" (Some 80%Z)).1.
Proof.
  apply (setBasePrice_overwrites chair_store "chair" (Some 250%Z) 80).
  discriminate.
Defined.

Lemma setCategory_twice (c : string) (m1 m2 : list (string * ProductOption))
    (o : OptionsObject) :
  c <> "__proto__" \/ obj_get "__proto__" m1 = None ->
  setCategory c m2 (setCategory c m1 o) = setCategory c m2 o.
Proof.
  intros Hc. unfold setCategory.
  destruct (decide (c = "__proto__")) as [->|Hne].
  - destruct Hc as [Hc|Hm1]; [done|].
    destruct (categories o !! "__proto__") as [m0|] eqn:Eown;
      destruct (prototype o ≫= obj_get "__proto__") as [x|] eqn:Ep; simpl;
      rewrite ?Eown, ?lookup_insert_eq, ?Hm1; simpl;
      rewrite ?insert_insert_eq; reflexivity.
  - rewrite !(bool_decide_eq_false_2 (c = "__proto__")) by exact Hne. simpl.
    by rewrite insert_insert_eq.
Qed.

Lemma addOptions_set (store : Store) (t c : string) (m : list (string * ProductOption)) :
  addOptions store t c (Some m)
  = match lookupTemplate store t with
    | Stored template =>
        (storeTemplate store t (assignOptions c m template),
         mkResponse 200 (Message "Options added successfully."))
    | l =>
        if absent l
        then (storeTemplate store t (assignOptions c m emptyTemplate),
              mkResponse 200 (Message "Options added successfully."))
        else (store, mkResponse 500 Thrown)
    end.
Proof.
  unfold addOptions. by rewrite validateRequestBody_truthy by reflexivity.
Qed.

(** X7. Assigning a category's options twice leaves the store as if only
    the second assignment had been made: the mapping is overwritten, not
    merged with the earlier one. This needs that the category is not
    [__proto__], or that the first mapping has no own property of that
    name. *)
Theorem addOptions_overwrites (store : Store) (t c : string)
    (m1 m2 : list (string * ProductOption)) :
  c <> "__proto__" \/ obj_get "__proto__" m1 = None ->
  (addOptions (addOptions store t c (Some m1)).1 t c (Some m2)).1
  = (addOptions store t c (Some m2)).1.
Proof.
  intros Hc. rewrite (addOptions_set store).
  assert (forall template,
            (addOptions (storeTemplate store t (assignOptions c m1 template))
                        t c (Some m2)).1
            = storeTemplate store t (assignOptions c m2 template)) as Hstored.
  { intros template. rewrite addOptions_set, lookupTemplate_storeTemplate. simpl.
    rewrite storeTemplate_twice. unfold assignOptions. simpl.
    by rewrite (setCategory_twice _ _ _ _ Hc). }
  destruct (lookupTemplate store t) as [template| | |p0|] eqn:El; simpl;
    rewrite ?Hstored; try reflexivity;
    try (rewrite addOptions_set, El; reflexivity).
  destruct (negb (truthy p0)) eqn:Ep; simpl.
  - rewrite Hstored, addOptions_set, El. simpl. by rewrite Ep.
  - rewrite !addOptions_set, El. simpl. by rewrite Ep.
Qed.

Lemma addOptions_overwrites_witness :
  (addOptions (addOptions chair_store "chair" "__proto__"
                 (Some [("x", mkOption "X" 5)])).1
              "chair" "__proto__" (Some [("y", mkOption "Y" 6)])).1
  = (addOptions chair_store "chair" "__proto__" (Some [("y", mkOption "Y" 6)])).1.
Proof.
  apply (addOptions_overwrites chair_store "chair" "__proto__").
  right. reflexivity.
Defined.

(** Without that condition the two stores differ: the first mapping,
    installed as prototype, holds an own [__proto__], and the second
    assignment then creates an own property instead of replacing it. *)
Lemma addOptions_overwrites_proto :
  (addOptions (addOptions chair_store "chair" "__proto__"
                 (Some [("__proto__", mkOption "X" 5)])).1
              "chair" "__proto__" (Some [("y", mkOption "Y" 6)])).1
  <> (addOptions chair_store "chair" "__proto__" (Some [("y", mkOption "Y" 6)])).1.
Proof.
  intros Heq.
  assert (forall s1 s2 : Store, s1 = s2 ->
            (prototype ∘ options <$> templates s1 !! "chair")
            = (prototype ∘ options <$> templates s2 !! "chair")) as Hproj
    by (by intros s1 s2 ->).
  apply Hproj in Heq. vm_compute in Heq. discriminate Heq.
Qed.

(** What the available-options route reads of the store. *)
Lemma getAvailableOptions_ext (store store' : Store) (t c : string)
    (body : option (list (string * string))) (template template' : Template) :
  templates store !! t = Some template ->
  templates store' !! t = Some template' ->
  compatibilityRules template' = compatibilityRules template ->
  categoryEntries store' template' c = categoryEntries store template c ->
  getAvailableOptions store' t c body = getAvailableOptions store t c body.
Proof.
  intros Ht Ht' Hrules Hentries. unfold getAvailableOptions.
  destruct (validateRequestBody _ _); [reflexivity|].
  rewrite (lookupTemplate_stored _ _ _ Ht), (lookupTemplate_stored _ _ _ Ht').
  rewrite Hentries. destruct (categoryEntries store template c); [|reflexivity].
  unfold availableOptions. by rewrite !filter_keepOption, Hrules.
Qed.

(** X8. Assigning the options of one category changes no answer of the
    available-options route about any category of another stored
    template, or about another category of the same template when the
    assigned category is not [__proto__]. *)
Theorem addOptions_other_category (store : Store)
    (t c t' c' : string) (body_options : option (list (string * ProductOption)))
    (currentSelections : option (list (string * string))) :
  is_Some (templates store !! t') ->
  t <> t' \/ (c <> c' /\ c <> "__proto__") ->
  getAvailableOptions (addOptions store t c body_options).1 t' c' currentSelections
  = getAvailableOptions store t' c' currentSelections.
Proof.
  intros [template Ht'] Hne. unfold addOptions.
  destruct (validateRequestBody _ _); simpl; [reflexivity|].
  destruct (decide (t = t')) as [->|Hnet].
  - destruct Hne as [Hne|[Hc Hproto]]; [done|].
    rewrite (lookupTemplate_stored _ _ _ Ht'). simpl.
    eapply getAvailableOptions_ext;
      [exact Ht' | simpl; apply lookup_insert_eq | reflexivity |].
    unfold categoryEntries, lookupCategory, assignOptions, setCategory. simpl.
    rewrite (bool_decide_eq_false_2 (c = "__proto__")) by exact Hproto. simpl.
    by rewrite lookup_insert_ne.
  - assert (forall template0,
              getAvailableOptions (storeTemplate store t template0) t' c'
                currentSelections
              = getAvailableOptions store t' c' currentSelections) as Hother.
    { intros template0.
      apply (getAvailableOptions_ext _ _ _ _ _ template template Ht');
        [simpl; by rewrite lookup_insert_ne | reflexivity | reflexivity]. }
    destruct (lookupTemplate store t) as [template0| | |p0|]; simpl;
      rewrite ?Hother; try reflexivity.
    destruct (negb (truthy p0)); simpl; by rewrite ?Hother.
Qed.

Lemma addOptions_other_category_witness :
  getAvailableOptions
    (addOptions chair_store "chair" "legs" (Some [])).1 "chair" "finish" (Some [])
  = getAvailableOptions chair_store "chair" "finish" (Some []).
Proof.
  apply (addOptions_other_category chair_store "chair" "legs" "chair" "finish").
  - vm_compute. eauto.
  - right. split; discriminate.
Defined.

Lemma categoryEntries_polluted (store : Store) (template : Template) (c : string)
    (p : Z) :
  plainCategory store (options template) c = true ->
  categoryEntries
    {| templates := templates store; prototype_base_price := Some p |} template c
  = categoryEntries store template c.
Proof.
  unfold plainCategory, categoryEntries, lookupCategory. simpl.
  destruct (categories (options template) !! c) as [m|]; [done|].
  destruct (prototype (options template) ≫= obj_get c); [discriminate|].
  case_bool_decide.
  { destruct (prototype (options template)); discriminate. }
  case_bool_decide; [discriminate|].
  destruct (prototype_base_price store) as [p0|].
  - case_bool_decide; [discriminate|done].
  - by case_bool_decide.
Qed.

(** X9. The base price never shows in the available options: for a stored
    template and a category that is an own property of its options or
    resolves to nothing, the available-options route answers after any
    set-base-price request, for any identifier, as it did before. The
    condition on the category is needed: a set-base-price request for
    [constructor] gives the function [Object] an enumerable property
    [base_price], which the category [constructor] of any template then
    lists. *)
Theorem setBasePrice_keeps_available_options (store : Store)
    (t t' c : string) (own_base_price : option Z) (template : Template)
    (currentSelections : option (list (string * string))) :
  templates store !! t' = Some template ->
  plainCategory store (options template) c = true ->
  exists answer : Response,
    getAvailableOptions store t' c currentSelections = Some answer
    /\ getAvailableOptions (setBasePrice store t own_base_price).1 t' c
         currentSelections
       = Some answer.
Proof.
  intros Ht' Hplain.
  assert (exists answer, getAvailableOptions store t' c currentSelections = Some answer)
    as [answer Hanswer].
  { unfold getAvailableOptions. destruct (validateRequestBody _ _); [by eauto|].
    rewrite (lookupTemplate_stored _ _ _ Ht'), (categoryEntries_plain _ _ _ Hplain).
    by eauto. }
  exists answer. split; [exact Hanswer|]. rewrite <- Hanswer.
  unfold setBasePrice.
  destruct (validateRequestBody _ _); simpl; [reflexivity|].
  assert (forall template0,
            t <> t' ->
            getAvailableOptions (storeTemplate store t template0) t' c
              currentSelections
            = getAvailableOptions store t' c currentSelections) as Hother.
  { intros template0 Hne.
    apply (getAvailableOptions_ext _ _ _ _ _ template template Ht');
      [simpl; by rewrite lookup_insert_ne | reflexivity | reflexivity]. }
  destruct (lookupTemplate store t) as [template0| | |p0|] eqn:El; simpl.
  - destruct (decide (t = t')) as [->|Hne]; [|by apply Hother].
    apply lookupTemplate_Stored_inv in El.
    assert (template0 = template) as -> by congruence.
    eapply getAvailableOptions_ext;
      [exact Ht' | simpl; apply lookup_insert_eq | reflexivity | reflexivity].
  - reflexivity.
  - apply (getAvailableOptions_ext _ _ _ _ _ template template Ht');
      [exact Ht' | reflexivity |].
    by apply categoryEntries_polluted.
  - destruct (negb (truthy p0)); simpl; [|reflexivity].
    apply Hother. intros ->.
    by rewrite (lookupTemplate_stored _ _ _ Ht') in El.
  - apply Hother. intros ->.
    by rewrite (lookupTemplate_stored _ _ _ Ht') in El.
Qed.

Lemma setBasePrice_keeps_available_options_witness :
  exists answer : Response,
    getAvailableOptions chair_store "chair" "base_price" (Some []) = Some answer
    /\ getAvailableOptions (setBasePrice chair_store "__proto__" (Some 250%Z)).1
         "chair" "base_price" (Some [])
       = Some answer.
Proof.
  apply (setBasePrice_keeps_available_options chair_store "__proto__" "chair"
           "base_price" (Some 250%Z) chair (Some []));
    reflexivity.
Defined.

(** ** Verdicts *)

(** What the validate-configuration route reads of the store. *)
Lemma selectedOption_ext (store store' : Store) (template template' : Template)
    (sel : list (string * string)) (k : string) :
  prototype_base_price store' = prototype_base_price store ->
  options template' = options template ->
  selectedOption store' template' sel k = selectedOption store template sel k.
Proof.
  intros Hp Ho.
  unfold selectedOption, lookupCategory, lookupInOption, lookupMember.
  by rewrite Hp, Ho.
Qed.

Lemma validate_ext (store store' : Store) (template template' : Template)
    (sel : list (string * string)) :
  prototype_base_price store' = prototype_base_price store ->
  options template' = options template ->
  compatibilityRules template' = compatibilityRules template ->
  base_price template' = base_price template ->
  validate store' template' sel = validate store template sel.
Proof.
  intros Hp Ho Hr Hb. unfold validate. rewrite Hr, Hb.
  destruct (0 <? length _)%nat; [reflexivity|].
  assert (forall keys total,
            foldl (addPrice store' template' sel) total keys
            = foldl (addPrice store template sel) total keys) as ->; [|reflexivity].
  induction keys as [|k keys IH]; intros total; simpl; [reflexivity|].
  rewrite IH. f_equal. unfold addPrice.
  by rewrite (selectedOption_ext _ _ _ _ _ _ Hp Ho).
Qed.

Lemma validate_status (store : Store) (template : Template)
    (sel : list (string * string)) (answer : Response) :
  validate store template sel = Some answer ->
  status answer
  = if forallb (ruleSatisfied sel) (compatibilityRules template) then 200 else 400.
Proof.
  destruct (forallb _ _) eqn:E.
  - unfold validate. rewrite foldl_checkRule. simpl.
    rewrite (proj2 (violations_nil_iff _ _) E). simpl.
    destruct (foldl _ _ _); [|discriminate]. by intros [= <-].
  - rewrite validate_violated by exact E. by intros [= <-].
Qed.



(** X12. The two read routes agree on a stored template and a category
    that is an own property of its options or resolves to nothing: for the
    same selections, when validate-configuration answers 200 the available
    options are the whole category, and when it answers 400 they are
    empty. *)
Theorem routes_agree (store : Store) (t c : string)
    (template : Template) (selections : list (string * string))
    (answer : Response) :
  templates store !! t = Some template ->
  plainCategory store (options template) c = true ->
  validateConfiguration store t (Some selections) = Some answer ->
  getAvailableOptions store t c (Some selections)
  = Some (mkResponse 200
      (Options
         (if Nat.eqb (status answer) 200
          then map (fun entry =>
                      {| Summary.name := name entry.2;
                         Summary.choice_str_id := entry.1;
                         Summary.price_delta := price_delta entry.2 |})
                   (own_entries (default [] (categories (options template) !! c)))
          else []))).
Proof.
  intros Ht Hplain Hanswer.
  rewrite (validateConfiguration_found _ _ _ _ Ht) in Hanswer.
  rewrite (validate_status _ _ _ _ Hanswer).
  rewrite (getAvailableOptions_found _ _ _ _ _ Ht).
  rewrite (categoryEntries_plain _ _ _ Hplain).
  unfold availableOptions. rewrite filter_keepOption.
  destruct (forallb _ _); [|reflexivity]. simpl.
  do 3 f_equal. apply map_ext. by intros [choice option].
Qed.

Lemma routes_agree_witness :
  getAvailableOptions chair_store "chair" "finish" (Some chair_selections)
  = Some (mkResponse 200
      (Options [Summary.mk "Oak finish" "finish_oak" 20;
                Summary.mk "Pine finish" "finish_pine" 5])).
Proof.
  refine (routes_agree chair_store "chair" "finish" chair chair_selections
            (mkResponse 200 (Valid (Finite 100) chair_selections)) _ _ _);
    reflexivity.
Defined.

(** Without the condition on the category the routes need not agree: once
    a mapping is installed as prototype of the options, the category [x]
    resolves to the option object under [x], and the route enumerates the
    properties of that object instead of answering the empty list. *)
Lemma routes_agree_inherited_category :
  let store :=
    (addOptions chair_store "chair" "__proto__" (Some [("x", mkOption "X" 5)])).1 in
  categories (options (default emptyTemplate (templates store !! "chair"))) !! "x" = None
  /\ validateConfiguration store "chair" (Some [])
     = Some (mkResponse 200 (Valid (Finite 100) []))
  /\ getAvailableOptions store "chair" "x" (Some [])
     <> Some (mkResponse 200 (Options [])).
Proof.
  split; [reflexivity|]. split; [reflexivity|].
  vm_compute. intros H. discriminate H.
Qed.




(** X14. A rule between a choice and itself: as REQUIRES it is satisfied by
    every selection context; as INCOMPATIBLE_WITH it is satisfied exactly
    when the choice is not selected, so it bars the choice. *)
Theorem self_referential_rule (selectionContext : list (string * string)) (a : string) :
  ruleSatisfied selectionContext (mkRule "REQUIRES" a a) = true
  /\ (ruleSatisfied selectionContext (mkRule "INCOMPATIBLE_WITH" a a) = true
      <-> ~ selected selectionContext a).
Proof.
  unfold ruleSatisfied, selected. simpl.
  destruct (decide (obj_get a selectionContext = Some a)) as [Ha|Ha].
  - rewrite !bool_decide_eq_true_2 by exact Ha. simpl.
    split; [reflexivity|]. split; [discriminate | done].
  - rewrite !bool_decide_eq_false_2 by exact Ha. simpl.
    split; [reflexivity|]. done.
Qed.

(** X15. The verdict of an INCOMPATIBLE_WITH rule does not depend on which
    of its two choices is written as primary: it is violated exactly when
    both are selected. *)
Theorem incompatible_symmetric (selectionContext : list (string * string))
    (a b : string) :
  ruleSatisfied selectionContext (mkRule "INCOMPATIBLE_WITH" a b)
  = ruleSatisfied selectionContext (mkRule "INCOMPATIBLE_WITH" b a)
  /\ (ruleSatisfied selectionContext (mkRule "INCOMPATIBLE_WITH" a b) = false
      <-> selected selectionContext a /\ selected selectionContext b).
Proof.
  unfold ruleSatisfied, selected. simpl.
  destruct (decide (obj_get a selectionContext = Some a)) as [Ha|Ha];
    destruct (decide (obj_get b selectionContext = Some b)) as [Hb|Hb];
    rewrite ?(bool_decide_eq_true_2 _ Ha), ?(bool_decide_eq_false_2 _ Ha),
            ?(bool_decide_eq_true_2 _ Hb), ?(bool_decide_eq_false_2 _ Hb);
    simpl; (split; [reflexivity|]); split; try discriminate; try done;
    intros [? ?]; done.
Qed.

(** ** A rule more, an entry more *)

Lemma validate_pushRule (store : Store) (template : Template) (rule : Rule)
    (selections : list (string * string)) :
  validate store (pushRule rule template) selections
  = if ruleSatisfied selections rule
    then validate store template selections
    else Some (mkResponse 400
           (Invalid (violations selections (compatibilityRules template)
                     ++ [violationMessage rule]))).
Proof.
  destruct (ruleSatisfied selections rule) eqn:Er.
  - unfold validate. simpl. rewrite !foldl_checkRule. simpl.
    rewrite violations_app, Er, app_nil_r.
    destruct (0 <? length _)%nat; [reflexivity|].
    assert (forall keys total,
              foldl (addPrice store (pushRule rule template) selections) total keys
              = foldl (addPrice store template selections) total keys) as ->;
      [|reflexivity].
    induction keys as [|k keys IH]; intros total; simpl; [reflexivity|].
    by rewrite IH.
  - unfold validate. simpl. rewrite !foldl_checkRule. simpl.
    rewrite violations_app, Er, length_app. simpl.
    by rewrite (proj2 (Nat.ltb_lt 0 _)) by lia.
Qed.

(** X16. After a rule is added to a stored template, the
    validate-configuration route answers selections that satisfy the new
    rule exactly as before, and answers selections that violate it 400 with
    the violations of the earlier rules, in their order, followed by the
    message of the new rule. *)
Theorem validateConfiguration_after_addCompatibilityRule
    (store : Store) (t : string) (template : Template)
    (ty p s : string) (selections : list (string * string)) :
  templates store !! t = Some template ->
  ty <> "" -> p <> "" -> s <> "" ->
  validateConfiguration
    (addCompatibilityRule store t (RuleBody.mk (Some ty) (Some p) (Some s))).1
    t (Some selections)
  = if ruleSatisfied selections (mkRule ty p s)
    then validateConfiguration store t (Some selections)
    else Some (mkResponse 400
           (Invalid (violations selections (compatibilityRules template)
                     ++ [violationMessage (mkRule ty p s)]))).
Proof.
  intros Ht Hty Hp Hs.
  rewrite (addCompatibilityRule_store _ _ _ _ _ Hty Hp Hs)
    by (by rewrite (lookupTemplate_stored _ _ _ Ht)).
  rewrite Ht. simpl.
  erewrite validateConfiguration_found by (simpl; apply lookup_insert_eq).
  rewrite (validateConfiguration_found _ _ _ _ Ht).
  rewrite <- validate_pushRule.
  by apply validate_ext.
Qed.

Lemma validateConfiguration_after_addCompatibilityRule_witness :
  validateConfiguration
    (addCompatibilityRule chair_store "chair"
       (RuleBody.mk (Some "INCOMPATIBLE_WITH") (Some "legs_wood") (Some "legs_wood"))).1
    "chair" (Some [("legs_wood", "legs_wood")])
  = Some (mkResponse 400
      (Invalid [quoted "legs_wood" +:+ " requires " +:+ quoted "finish_oak";
                quoted "legs_wood" +:+ " is incompatible with " +:+ quoted "legs_wood"])).
Proof.
  refine (validateConfiguration_after_addCompatibilityRule chair_store "chair" chair
            "INCOMPATIBLE_WITH" "legs_wood" "legs_wood"
            [("legs_wood", "legs_wood")] _ _ _ _);
    [reflexivity | discriminate | discriminate | discriminate].
Defined.

Lemma obj_get_app {V : Type} (l1 l2 : list (string * V)) (k : string) :
  obj_get k (l1 ++ l2)
  = match obj_get k l1 with Some v => Some v | None => obj_get k l2 end.
Proof.
  induction l1 as [|[k' v'] l1 IH]; simpl; [reflexivity|].
  by destruct (decide (k' = k)).
Qed.

Section NewEntry.
Context (selections : list (string * string)) (key value : string).
Hypothesis Hne : key <> value.

Lemma selected_new_entry (choice : string) :
  bool_decide (obj_get choice (selections ++ [(key, value)]) = Some choice)
  = bool_decide (obj_get choice selections = Some choice).
Proof.
  apply bool_decide_ext. rewrite obj_get_app.
  destruct (obj_get choice selections); [done|]. simpl.
  destruct (decide (key = choice)) as [<-|]; [|done].
  split; [|discriminate]. intros [= ->]. done.
Qed.

Lemma ruleSatisfied_new_entry (rule : Rule) :
  ruleSatisfied (selections ++ [(key, value)]) rule = ruleSatisfied selections rule.
Proof. unfold ruleSatisfied. by rewrite !selected_new_entry. Qed.

Lemma violations_new_entry (rules : list Rule) :
  violations (selections ++ [(key, value)]) rules = violations selections rules.
Proof.
  unfold violations. f_equal.
  induction rules as [|rule rules IH]; simpl; [reflexivity|].
  by rewrite ruleSatisfied_new_entry, IH.
Qed.

End NewEntry.

(** X17. Adding to the selections an entry under a new key whose value
    differs from the key (a category with its choice) selects no choice in
    the sense of the rules: every rule keeps its verdict, and a
    configuration that was answered 400 is answered 400 with the same
    errors. *)
Theorem validateConfiguration_insert_entry (store : Store)
    (t : string) (template : Template) (selections : list (string * string))
    (key value : string) :
  templates store !! t = Some template ->
  obj_get key selections = None ->
  key <> value ->
  (forall rule : Rule,
     ruleSatisfied (selections ++ [(key, value)]) rule
     = ruleSatisfied selections rule)
  /\ (forallb (ruleSatisfied selections) (compatibilityRules template) = false ->
      validateConfiguration store t (Some (selections ++ [(key, value)]))
      = validateConfiguration store t (Some selections)
      /\ validateConfiguration store t (Some selections)
         = Some (mkResponse 400
                   (Invalid (violations selections (compatibilityRules template))))).
Proof.
  intros Ht _ Hne. split; [intros rule; by apply ruleSatisfied_new_entry|].
  intros Hviol.
  rewrite !(validateConfiguration_found _ _ _ _ Ht).
  rewrite (validate_violated _ _ selections) by exact Hviol.
  split; [|reflexivity].
  rewrite validate_violated.
  - by rewrite (violations_new_entry _ _ _ Hne).
  - rewrite <- Hviol. clear Hviol.
    induction (compatibilityRules template) as [|rule rules IH]; simpl; [reflexivity|].
    by rewrite (ruleSatisfied_new_entry _ _ _ Hne), IH.
Qed.

Lemma validateConfiguration_insert_entry_witness :
  validateConfiguration chair_store "chair"
    (Some ([("legs_wood", "legs_wood")] ++ [("finish", "finish_pine")]))
  = validateConfiguration chair_store "chair" (Some [("legs_wood", "legs_wood")]).
Proof.
  refine (proj1 (proj2 (validateConfiguration_insert_entry chair_store "chair" chair
                          [("legs_wood", "legs_wood")] "finish" "finish_pine"
                          _ _ _) _));
    [reflexivity | reflexivity | discriminate | reflexivity].
Defined.

(** X10. After a non-zero base price is set for an identifier that is no
    inherited member, a configuration that satisfies the rules of the
    template, with distinct keys and entries resolved by own properties
    alone, is answered 200 with the new base price plus the price deltas of
    the selected options, added in the order of [Object.keys]. *)
Theorem setBasePrice_then_validateConfiguration (store : Store) (t : string)
    (p : Z) (selections : list (string * string)) :
  p <> 0%Z ->
  inherits (lookupTemplate store t) = false ->
  forallb (ruleSatisfied selections)
    (compatibilityRules (default emptyTemplate (templates store !! t))) = true ->
  NoDup selections.*1 ->
  forallb (plainEntry store (options (default emptyTemplate (templates store !! t))))
    selections = true ->
  validateConfiguration (setBasePrice store t (Some p)).1 t (Some selections)
  = Some (mkResponse 200
      (Valid (foldl (fun total z => js_add total (Finite z)) (Finite p)
                (map price_delta
                   (omap (fun entry =>
                            categories
                              (options (default emptyTemplate (templates store !! t)))
                              !! entry.1
                            ≫= obj_get entry.2)
                         (own_entries selections))))
             selections)).
Proof.
  intros Hp Hinh Hsat Hnd Hplain.
  rewrite (setBasePrice_set _ _ _ Hp).
  destruct (lookupTemplate store t) as [template| | |p0|] eqn:El;
    try discriminate Hinh; cbn [absent fst].
  - rewrite (lookupTemplate_Stored_inv _ _ _ El) in Hsat, Hplain |- *.
    erewrite validateConfiguration_found by (simpl; apply lookup_insert_eq).
    rewrite (validate_satisfied (storeTemplate store t (assignBasePrice p template))
               (assignBasePrice p template) selections Hsat Hnd Hplain).
    reflexivity.
  - assert (templates store !! t = None) as Ht.
    { unfold lookupTemplate in El. by destruct (templates store !! t). }
    rewrite Ht in Hsat, Hplain |- *.
    erewrite validateConfiguration_found by (simpl; apply lookup_insert_eq).
    rewrite (validate_satisfied (storeTemplate store t (assignBasePrice p emptyTemplate))
               (assignBasePrice p emptyTemplate) selections Hsat Hnd Hplain).
    reflexivity.
Qed.

Lemma setBasePrice_then_validateConfiguration_witness :
  validateConfiguration (setBasePrice chair_store "chair" (Some 250%Z)).1 "chair"
    (Some chair_selections)
  = Some (mkResponse 200 (Valid (Finite 250) chair_selections)).
Proof.
  refine (setBasePrice_then_validateConfiguration chair_store "chair" 250
            chair_selections _ _ _ _ _).
  - discriminate.
  - reflexivity.
  - reflexivity.
  - apply (bool_decide_unpack _). vm_compute. exact I.
  - reflexivity.
Defined.

(** ** Requests for other templates *)

Lemma perform_frame (store : Store) (m : Mutation) (t : string) :
  mutated m <> t ->
  templates (perform store m) !! t = templates store !! t.
Proof.
  intros Hne.
  destruct (perform_cases store m)
    as [-> | [(f & before & _ & -> & _) | (p & _ & ->)]]; try reflexivity.
  simpl. by apply lookup_insert_ne.
Qed.

Lemma perform_prototype_base_price (store : Store) (m : Mutation) :
  mutated m <> "__proto__" ->
  prototype_base_price (perform store m) = prototype_base_price store.
Proof.
  intros Hne. destruct m as [t body|t body|t c body]; simpl in *.
  - unfold addCompatibilityRule. destruct (validateRequestBody _ _); [reflexivity|].
    destruct (lookupTemplate store t) as [template| | |p0|]; simpl;
      try reflexivity.
    by destruct (negb (truthy p0)).
  - unfold setBasePrice. destruct (validateRequestBody _ _); [reflexivity|].
    destruct (lookupTemplate store t) as [template| | |p0|] eqn:El; simpl;
      try reflexivity.
    + by destruct (lookupTemplate_ObjectPrototype_inv _ _ El).
    + by destruct (negb (truthy p0)).
  - unfold addOptions. destruct (validateRequestBody _ _); [reflexivity|].
    destruct (lookupTemplate store t) as [template| | |p0|]; simpl;
      try reflexivity.
    by destruct (negb (truthy p0)).
Qed.

Lemma lookupTemplate_ext (store store' : Store) (t : string) :
  templates store' !! t = templates store !! t ->
  prototype_base_price store' = prototype_base_price store ->
  lookupTemplate store' t = lookupTemplate store t.
Proof. intros Ht Hp. unfold lookupTemplate. by rewrite Ht, Hp. Qed.

Lemma categoryEntries_ext (store store' : Store) (template : Template) (c : string) :
  prototype_base_price store' = prototype_base_price store ->
  categoryEntries store' template c = categoryEntries store template c.
Proof. intros Hp. unfold categoryEntries, lookupCategory. by rewrite Hp. Qed.

Lemma reads_ext (store store' : Store) (t : string) :
  templates store' !! t = templates store !! t ->
  prototype_base_price store' = prototype_base_price store ->
  (forall c body, getAvailableOptions store' t c body = getAvailableOptions store t c body)
  /\ (forall body, validateConfiguration store' t body = validateConfiguration store t body).
Proof.
  intros Ht Hp. split.
  - intros c body. unfold getAvailableOptions.
    rewrite (lookupTemplate_ext _ _ _ Ht Hp).
    destruct (validateRequestBody _ _); [reflexivity|].
    destruct (lookupTemplate store t); try reflexivity.
    by rewrite (categoryEntries_ext _ _ _ _ Hp).
  - intros body. unfold validateConfiguration.
    rewrite (lookupTemplate_ext _ _ _ Ht Hp).
    destruct (validateRequestBody _ _); [reflexivity|].
    destruct (lookupTemplate store t); try reflexivity.
    by apply validate_ext.
Qed.

(** X18. The answers of the two read routes for one template identifier do
    not depend on requests made for other identifiers, as long as none of
    those names a member of [Object.prototype]: after any sequence of such
    mutation requests both routes answer as before. *)
Theorem reads_isolated (store : Store) (ms : list Mutation) (t : string) :
  Forall (fun m => mutated m <> t /\ mutated m ∉ prototype_members) ms ->
  (forall c body,
     getAvailableOptions (foldl perform store ms) t c body
     = getAvailableOptions store t c body)
  /\ (forall body,
        validateConfiguration (foldl perform store ms) t body
        = validateConfiguration store t body).
Proof.
  intros Hall. apply reads_ext; revert store.
  - induction Hall as [|m ms [Hne _] _ IH]; intros store; simpl; [reflexivity|].
    rewrite IH. by apply perform_frame.
  - induction Hall as [|m ms [_ Hmem] _ IH]; intros store; simpl; [reflexivity|].
    rewrite IH. apply perform_prototype_base_price.
    intros Heq. apply Hmem. rewrite Heq. by left.
Qed.

Lemma reads_isolated_witness :
  validateConfiguration
    (foldl perform chair_store
       [SetBasePrice "table" (Some 40%Z);
        AddCompatibilityRule "desk" (RuleBody.mk (Some "REQUIRES") (Some "a") (Some "b"))])
    "chair" (Some chair_selections)
  = validateConfiguration chair_store "chair" (Some chair_selections).
Proof.
  refine (proj2 (reads_isolated chair_store
                   [SetBasePrice "table" (Some 40%Z);
                    AddCompatibilityRule "desk"
                      (RuleBody.mk (Some "REQUIRES") (Some "a") (Some "b"))]
                   "chair" _) _).
  repeat constructor; simpl; try discriminate;
    apply (bool_decide_unpack _); vm_compute; exact I.
Defined.

Lemma perform_local (store store' : Store) (m : Mutation) :
  templates store' !! mutated m = templates store !! mutated m ->
  prototype_base_price store' = prototype_base_price store ->
  templates (perform store' m) !! mutated m = templates (perform store m) !! mutated m.
Proof.
  intros Ht Hp. destruct m as [t body|t body|t c body]; simpl in *.
  - unfold addCompatibilityRule. rewrite (lookupTemplate_ext _ _ _ Ht Hp).
    destruct (validateRequestBody _ _); [exact Ht|].
    destruct (lookupTemplate store t) as [template| | |p0|]; simpl;
      rewrite ?lookup_insert_eq; try done.
    destruct (negb (truthy p0)); simpl; rewrite ?lookup_insert_eq; done.
  - unfold setBasePrice, body_base_price. rewrite (lookupTemplate_ext _ _ _ Ht Hp), Hp.
    destruct (validateRequestBody _ _); [exact Ht|].
    destruct (lookupTemplate store t) as [template| | |p0|]; simpl;
      rewrite ?lookup_insert_eq; try done.
    destruct (negb (truthy p0)); simpl; rewrite ?lookup_insert_eq; done.
  - unfold addOptions. rewrite (lookupTemplate_ext _ _ _ Ht Hp).
    destruct (validateRequestBody _ _); [exact Ht|].
    destruct (lookupTemplate store t) as [template| | |p0|]; simpl;
      rewrite ?lookup_insert_eq; try done.
    destruct (negb (truthy p0)); simpl; rewrite ?lookup_insert_eq; done.
Qed.

Lemma store_eq (store store' : Store) :
  templates store = templates store' ->
  prototype_base_price store = prototype_base_price store' ->
  store = store'.
Proof. destruct store, store'. simpl. by intros -> ->. Qed.

(** X19. Two mutation requests for different template identifiers, neither
    of them [__proto__], can be served in either order: the store is the
    same. *)
Theorem mutations_commute (store : Store) (m1 m2 : Mutation) :
  mutated m1 <> mutated m2 ->
  mutated m1 <> "__proto__" ->
  mutated m2 <> "__proto__" ->
  perform (perform store m1) m2 = perform (perform store m2) m1.
Proof.
  intros Hne H1 H2. apply store_eq.
  - apply map_eq. intros k.
    destruct (decide (mutated m1 = k)) as [<-|Hk1].
    + rewrite (perform_frame _ m2) by done.
      symmetry. apply perform_local.
      * by apply perform_frame.
      * by apply perform_prototype_base_price.
    + destruct (decide (mutated m2 = k)) as [<-|Hk2].
      * rewrite (perform_frame _ m1 (mutated m2)) by done.
        apply perform_local.
        -- by apply perform_frame.
        -- by apply perform_prototype_base_price.
      * by rewrite !perform_frame.
  - by rewrite !perform_prototype_base_price.
Qed.

Lemma mutations_commute_witness :
  perform (perform chair_store (SetBasePrice "chair" (Some 250%Z)))
    (AddOptions "table" "top" (Some [("top_oak", mkOption "Oak top" 60)]))
  = perform (perform chair_store
               (AddOptions "table" "top" (Some [("top_oak", mkOption "Oak top" 60)])))
      (SetBasePrice "chair" (Some 250%Z)).
Proof.
  apply (mutations_commute chair_store (SetBasePrice "chair" (Some 250%Z))
           (AddOptions "table" "top" (Some [("top_oak", mkOption "Oak top" 60)])));
    simpl; discriminate.
Defined.

(** With [__proto__] the order matters: once [Object.prototype.base_price]
    is set, a set-base-price request without a price of its own is
    accepted. *)
Lemma mutations_commute_proto :
  perform (perform startup (SetBasePrice "__proto__" (Some 5%Z))) (SetBasePrice "x" None)
  <> perform (perform startup (SetBasePrice "x" None)) (SetBasePrice "__proto__" (Some 5%Z)).
Proof.
  intros Heq. apply (f_equal (fun store => templates store !! "x")) in Heq.
  vm_compute in Heq. discriminate Heq.
Qed.

(** ** The round trip outside the prototype names *)

Lemma lookupCategory_setCategory (store : Store) (c : string)
    (m : list (string * ProductOption)) (o : OptionsObject) :
  c <> "__proto__" \/ obj_get "__proto__" m = None ->
  lookupCategory store (setCategory c m o) c = Mapping m.
Proof.
  intros Hc. unfold lookupCategory, setCategory.
  destruct (decide (c = "__proto__")) as [->|Hne].
  - destruct Hc as [Hc|Hm]; [done|].
    destruct (categories o !! "__proto__") as [m0|] eqn:Eown;
      destruct (prototype o ≫= obj_get "__proto__") as [x|] eqn:Ep; simpl;
      rewrite ?Eown, ?lookup_insert_eq, ?Hm; reflexivity.
  - rewrite (bool_decide_eq_false_2 (c = "__proto__")) by exact Hne. simpl.
    by rewrite lookup_insert_eq.
Qed.

Lemma addOptions_listed (store : Store) (t c : string)
    (m : list (string * ProductOption)) :
  inherits (lookupTemplate store t) = false ->
  c <> "__proto__" \/ obj_get "__proto__" m = None ->
  getAvailableOptions (addOptions store t c (Some m)).1 t c (Some [])
  = Some (mkResponse 200 (Options (map summarize (own_entries m)))).
Proof.
  intros Hinh Hc. rewrite addOptions_set.
  assert (forall template,
            getAvailableOptions (storeTemplate store t (assignOptions c m template))
              t c (Some [])
            = Some (mkResponse 200 (Options (map summarize (own_entries m)))))
    as Hstored.
  { intros template.
    erewrite getAvailableOptions_found by (simpl; apply lookup_insert_eq).
    unfold categoryEntries. simpl.
    rewrite (lookupCategory_setCategory _ _ _ _ Hc).
    unfold availableOptions. rewrite filter_keepOption.
    by rewrite all_rules_satisfied_empty. }
  destruct (lookupTemplate store t) as [template| | |p0|];
    try discriminate Hinh; simpl; apply Hstored.
Qed.

(** X22. For an identifier that is no inherited member, the options
    assigned to a category are what the available-options route lists for
    that category and empty selections, whatever rules the template has:
    one element per entry, with its name, choice identifier and price
    delta, in the order of [Object.entries]. For the category [__proto__]
    this needs that the mapping has no own property of that name. *)
Theorem addOptions_then_getAvailableOptions (store : Store) (t c : string)
    (m : list (string * ProductOption)) :
  inherits (lookupTemplate store t) = false ->
  c <> "__proto__" \/ obj_get "__proto__" m = None ->
  getAvailableOptions (addOptions store t c (Some m)).1 t c (Some [])
  = Some (mkResponse 200
      (Options (map (fun entry =>
                       {| Summary.name := name entry.2;
                          Summary.choice_str_id := entry.1;
                          Summary.price_delta := price_delta entry.2 |})
                    (own_entries m)))).
Proof.
  intros Hinh Hc. rewrite (addOptions_listed _ _ _ _ Hinh Hc).
  do 3 f_equal. apply map_ext. by intros [choice option].
Qed.

Lemma addOptions_then_getAvailableOptions_witness :
  getAvailableOptions
    (addOptions chair_store "chair" "__proto__"
       (Some [("b", mkOption "B" 7); ("1", mkOption "One" 1)])).1
    "chair" "__proto__" (Some [])
  = Some (mkResponse 200 (Options [Summary.mk "One" "1" 1; Summary.mk "B" "b" 7])).
Proof.
  refine (addOptions_then_getAvailableOptions chair_store "chair" "__proto__"
            [("b", mkOption "B" 7); ("1", mkOption "One" 1)] _ _).
  - reflexivity.
  - right. reflexivity.
Defined.

(** The round trip of the specification, for every such identifier and
    every category. *)
Lemma addOptions_roundtrip_plain (store : Store) (t c : string) :
  inherits (lookupTemplate store t) = false ->
  getAvailableOptions (addOptions store t c (Some [("x", mkOption "X" 5)])).1
    t c (Some [])
  = Some (mkResponse 200 (Options [Summary.mk "X" "x" 5])).
Proof.
  intros Hinh.
  rewrite (addOptions_listed _ _ _ _ Hinh) by (by right).
  reflexivity.
Qed.
